(** * graphql-bench: the benchmark configuration and metrics model

    A verification development for [app/queries/src/executors/base/types.ts].

    The source file is a module of TypeScript declarations.  It is embedded
    in two layers:

    - [TS]: a small universe of TypeScript types ([ty]) and of the run-time
      values they classify ([value]), with the structural conformance check
      [conforms].  Every declaration of [types.ts] is then a constant of
      type [ty] (module [Types]), written field by field as in the source.
    - [Hdr], [Basic]: the components the declarations refer to
      ([PreciseHdrHistogram], the [histogram()] builder of [BasicHistogram]).
      Their code is not part of [types.ts]; each is modelled from the design
      document and marked as such. *)

From Stdlib Require Import QArith Qround.
From stdpp Require Import gmap strings list fin_maps sorting.

#[local] Set Warnings "-register-all".
#[local] Open Scope string_scope.

(* ===================================================================== *)
(** ** TypeScript types and values *)
(* ===================================================================== *)

Module TS.

(** Run-time values.  A JS object is a finite map from property names to
    values; [VHost] stands for an instance of a class of the host or of a
    library (a stream, a histogram object), named by its class. *)
Inductive value : Type :=
| VUndefined
| VNull
| VBool (b : bool)
| VNumber (x : Q)
| VString (s : string)
| VDate (epoch_ms : Z)
| VArray (items : list value)
| VObject (props : gmap string value)
| VHost (cls : string).

(** The fragment of TypeScript's type language that [types.ts] uses.
    A field of an object type is [(name, (optional, type))]; [optional]
    is the [?] of the source. *)
Inductive ty : Type :=
| TAny
| TString
| TNumber
| TBoolean
| TDate
| TLit (s : string)                               (* 'ASYNC' *)
| TEnum (members : list string)                   (* enum with string values *)
| TArray (elem : ty)                              (* T[] *)
| TUnion (l r : ty)                               (* L | R *)
| TInter (base own : ty)                          (* interface X extends Base { own } *)
| TObject (fields : list (string * (bool * ty)))  (* { f: T; g?: U } *)
| TRecord (elem : ty)                             (* Record<string, T> *)
| TImported (name : string).                      (* a type of another package *)

Definition field : Type := string * (bool * ty).

Definition req (name : string) (t : ty) : field := (name, (false, t)).
Definition opt (name : string) (t : ty) : field := (name, (true, t)).

Definition string_eqb (a b : string) : bool := bool_decide (a = b).

(** A property that is missing and a property that holds [undefined] are
    the same to the type checker (without exactOptionalPropertyTypes). *)
Definition absent (o : option value) : bool :=
  match o with
  | None | Some VUndefined => true
  | Some _ => false
  end.

Section Conformance.

(** The types imported from other packages ([K6Options], [Histogram], ...)
    are not declared in this repository: [ext name v] says whether [v] is
    a value of the imported type [name]. *)
Variable ext : string -> value -> bool.

(** Structural conformance of a value to a type.  Object types are open
    (a value may carry properties the type does not name), as in
    TypeScript's assignability.  [Record<string, T>] takes every value
    that is not a primitive: an object or an array whose properties are of
    type [T], and also a [Date] or an instance of a class. *)
Fixpoint conforms (t : ty) (v : value) {struct t} : bool :=
  match t with
  | TAny => true
  | TString => match v with VString _ => true | _ => false end
  | TNumber => match v with VNumber _ => true | _ => false end
  | TBoolean => match v with VBool _ => true | _ => false end
  | TDate => match v with VDate _ => true | _ => false end
  | TLit s => match v with VString s' => string_eqb s s' | _ => false end
  | TEnum members =>
      match v with
      | VString s' => existsb (string_eqb s') members
      | _ => false
      end
  | TArray elem =>
      match v with
      | VArray items => forallb (conforms elem) items
      | _ => false
      end
  | TUnion l r => conforms l v || conforms r v
  | TInter base own => conforms base v && conforms own v
  | TObject fields =>
      match v with
      | VObject props =>
          (fix conforms_fields (fs : list (string * (bool * ty))) : bool :=
             match fs with
             | [] => true
             | (name, (optional, ft)) :: rest =>
                 match props !! name with
                 | None | Some VUndefined => optional
                 | Some x => conforms ft x
                 end
                 && conforms_fields rest
             end) fields
      | _ => false
      end
  | TRecord elem =>
      match v with
      | VObject props => forallb (conforms elem) (map_to_list props).*2
      | VArray items => forallb (conforms elem) items
      | VDate _ | VHost _ => true
      | _ => false
      end
  | TImported name => ext name v
  end.

(** One field of an object type against the properties of an object. *)
Definition conforms_field (props : gmap string value) (f : field) : bool :=
  match props !! f.1 with
  | None | Some VUndefined => f.2.1
  | Some x => conforms f.2.2 x
  end.

End Conformance.

(** Property access [v.a.b.c]; [None] when a step is not an object or the
    property is missing. *)
Fixpoint get (path : list string) (v : value) : option value :=
  match path with
  | [] => Some v
  | name :: rest =>
      match v with
      | VObject props =>
          match props !! name with
          | Some x => get rest x
          | None => None
          end
      | _ => None
      end
  end.

(** [v] has a defined value at [path]. *)
Definition present (path : list string) (v : value) : bool :=
  negb (absent (get path v)).

(** The names an object type declares, in source order. *)
Definition field_names (t : ty) : list string :=
  match t with
  | TObject fields => fields.*1
  | _ => []
  end.

(** The declaration of field [name] in an object type. *)
Definition field_decl (name : string) (t : ty) : option (bool * ty) :=
  match t with
  | TObject fields => snd <$> List.find (fun f => string_eqb name f.1) fields
  | _ => None
  end.

(** The declared type at the end of a path of required fields. *)
Fixpoint required_at (path : list string) (t : ty) : option ty :=
  match path with
  | [] => Some t
  | name :: rest =>
      match field_decl name t with
      | Some (false, ft) => required_at rest ft
      | _ => None
      end
  end.

(** An object literal. *)
Definition obj (l : list (string * value)) : value := VObject (list_to_map l).

End TS.

(* ===================================================================== *)
(** ** The declarations of [types.ts] *)
(* ===================================================================== *)

Module Types.
Import TS.

(** [export type ExecutionStrategy = 'REQUESTS_PER_SECOND' | ...] *)
Definition ExecutionStrategy : ty :=
  TUnion (TLit "REQUESTS_PER_SECOND")
    (TUnion (TLit "FIXED_REQUEST_NUMBER")
       (TUnion (TLit "MAX_REQUESTS_IN_DURATION")
          (TUnion (TLit "MULTI_STAGE") (TLit "CUSTOM")))).

(** [export type ExecutionMode = 'ASYNC' | 'SYNC'] *)
Definition ExecutionMode : ty := TUnion (TLit "ASYNC") (TLit "SYNC").

(** [export enum BenchmarkTool { AUTOCANNON = 'autocannon', K6 = 'k6', WRK2 = 'wrk2' }] *)
Inductive BenchmarkTool : Type := AUTOCANNON | K6 | WRK2.

Definition BenchmarkTool_value (t : BenchmarkTool) : string :=
  match t with
  | AUTOCANNON => "autocannon"
  | K6 => "k6"
  | WRK2 => "wrk2"
  end.

Definition BenchmarkTool_all : list BenchmarkTool := [AUTOCANNON; K6; WRK2].

Definition BenchmarkTool_ty : ty := TEnum (BenchmarkTool_value <$> BenchmarkTool_all).

(** [interface _BenchmarkRunConfig] *)
Definition _BenchmarkRunConfig : ty :=
  TObject
    [ req "name" TString;
      req "tools" (TArray BenchmarkTool_ty);
      req "execution_strategy" ExecutionStrategy;
      req "query" TString;
      opt "variables" (TRecord TAny);
      opt "connections" TNumber ].

(** [export interface RequestsPerSecondBenchmark extends _BenchmarkRunConfig] *)
Definition RequestsPerSecondBenchmark : ty :=
  TInter _BenchmarkRunConfig
    (TObject
       [ req "execution_strategy" (TLit "REQUESTS_PER_SECOND");
         req "rps" TNumber;
         req "duration" TString ]).

(** [export interface FixedRequestNumberBenchmark extends _BenchmarkRunConfig] *)
Definition FixedRequestNumberBenchmark : ty :=
  TInter _BenchmarkRunConfig
    (TObject
       [ req "execution_strategy" (TLit "FIXED_REQUEST_NUMBER");
         req "requests" TNumber ]).

(** [export interface MaxRequestsInDurationBenchmark extends _BenchmarkRunConfig] *)
Definition MaxRequestsInDurationBenchmark : ty :=
  TInter _BenchmarkRunConfig
    (TObject
       [ req "execution_strategy" (TLit "MAX_REQUESTS_IN_DURATION");
         req "duration" TString ]).

(** [export interface MultiStageBenchmark extends _BenchmarkRunConfig];
    [K6Stage] is [Stage] of ['k6/options']. *)
Definition MultiStageBenchmark : ty :=
  TInter _BenchmarkRunConfig
    (TObject
       [ req "execution_strategy" (TLit "MULTI_STAGE");
         req "initial_rps" TNumber;
         req "stages" (TArray (TImported "K6Stage")) ]).

(** The type of [CustomBenchmark.options]. *)
Definition CustomBenchmark_options : ty :=
  TObject
    [ opt "k6" (TImported "K6Options");
      opt "autocannon" (TImported "AutocannonOptions") ].

(** An entry of [CustomBenchmark.options]: absent, or a value of the
    tool's imported options type. *)
Definition options_entry (ext : string -> value -> bool)
    (options : value) (tool imported : string) : Prop :=
  absent (get [tool] options) = true \/
  exists x, get [tool] options = Some x /\ ext imported x = true.

(** [export interface CustomBenchmark extends _BenchmarkRunConfig] *)
Definition CustomBenchmark : ty :=
  TInter _BenchmarkRunConfig
    (TObject
       [ req "execution_strategy" (TLit "CUSTOM");
         req "options" CustomBenchmark_options ]).

(** [export type Benchmark = RequestsPerSecondBenchmark | ... | CustomBenchmark] *)
Definition Benchmark : ty :=
  TUnion RequestsPerSecondBenchmark
    (TUnion FixedRequestNumberBenchmark
       (TUnion MaxRequestsInDurationBenchmark
          (TUnion MultiStageBenchmark CustomBenchmark))).

(** [export interface GlobalConfig] *)
Definition GlobalConfig : ty :=
  TObject
    [ req "url" TString;
      opt "extended_hasura_checks" TBoolean;
      opt "headers" (TRecord TAny);
      req "queries" (TArray Benchmark);
      opt "debug" TBoolean;
      opt "writeStream" (TImported "stream.Writable");
      opt "execution_mode" ExecutionMode ].

(** [export interface HDRHistogramParsedStats] *)
Definition HDRHistogramParsedStats : ty :=
  TObject
    [ req "value" TString;
      req "percentile" TString;
      req "totalCount" TString;
      req "ofOnePercentile" TString ].

(** [export interface HistogramSummaryWithEtc extends HistogramSummary];
    [HistogramSummary] is declared by hdr-histogram-js. *)
Definition HistogramSummaryWithEtc : ty :=
  TInter (TImported "HistogramSummary")
    (TObject
       [ req "mean" TNumber;
         opt "geoMean" TNumber;
         opt "p501stHalf" TNumber;
         opt "p501stQuarter" TNumber;
         opt "p501stEighth" TNumber;
         opt "geoMean1stHalf" TNumber;
         opt "geoMean1stQuarter" TNumber;
         opt "geoMean1stEighth" TNumber;
         req "min" TNumber;
         req "stdDeviation" TNumber ]).

(** [export interface HistBucket] (the record [Basic.HistBucket] has the
    name; this is its type as a [ty]). *)
Definition HistBucket_ty : ty :=
  TObject
    [ req "gte" TNumber;
      req "count" TNumber;
      req "count1stHalf" TNumber ].

(** [export interface BasicHistogram] (as a [ty]; the record is
    [Basic.BasicHistogram]). *)
Definition BasicHistogram_ty : ty :=
  TObject
    [ req "buckets" (TArray HistBucket_ty);
      req "outliersRemoved" TNumber ].

(** The anonymous object types inside [BenchmarkMetrics]. *)
Definition time_ty : ty :=
  TObject [ req "start" (TUnion TString TDate); req "end" (TUnion TString TDate) ].

Definition requests_ty : ty :=
  TObject [ req "count" TNumber; req "average" TNumber ].

Definition response_ty : ty :=
  TObject [ req "totalBytes" TNumber; req "bytesPerSecond" TNumber ].

Definition histogram_ty : ty :=
  TObject
    [ req "json" HistogramSummaryWithEtc;
      req "parsedStats" (TArray HDRHistogramParsedStats) ].

Definition extended_hasura_checks_ty : ty :=
  TObject
    [ req "bytes_allocated_per_request" TNumber;
      req "live_bytes_before" TNumber;
      req "live_bytes_after" TNumber;
      req "mem_in_use_bytes_before" TNumber;
      req "mem_in_use_bytes_after" TNumber ].

(** [export interface BenchmarkMetrics] *)
Definition BenchmarkMetrics : ty :=
  TObject
    [ req "name" TString;
      req "time" time_ty;
      req "requests" requests_ty;
      req "response" response_ty;
      req "histogram" histogram_ty;
      opt "basicHistogram" BasicHistogram_ty;
      opt "extended_hasura_checks" extended_hasura_checks_ty ].

(** [export interface BenchmarkMetricParams];
    [precise_hdr.PreciseHdrHistogram] is a class of '../../PreciseHdrHistogram'. *)
Definition BenchmarkMetricParams : ty :=
  TObject
    [ req "name" TString;
      req "histogram" (TImported "precise_hdr.PreciseHdrHistogram");
      opt "basicHistogram" BasicHistogram_ty;
      req "time" time_ty;
      req "requests" requests_ty;
      req "response" response_ty;
      opt "geoMean" TNumber;
      opt "p501stHalf" TNumber;
      opt "p501stQuarter" TNumber;
      opt "p501stEighth" TNumber;
      opt "geoMean1stHalf" TNumber;
      opt "geoMean1stQuarter" TNumber;
      opt "geoMean1stEighth" TNumber ].

(** The variants of [Benchmark], each with the literal that its
    [execution_strategy] is narrowed to. *)
Definition Benchmark_variants : list (string * ty) :=
  [ ("REQUESTS_PER_SECOND", RequestsPerSecondBenchmark);
    ("FIXED_REQUEST_NUMBER", FixedRequestNumberBenchmark);
    ("MAX_REQUESTS_IN_DURATION", MaxRequestsInDurationBenchmark);
    ("MULTI_STAGE", MultiStageBenchmark);
    ("CUSTOM", CustomBenchmark) ].

(** An optional field of a value: absent, or a value that [holds]. *)
Definition optionally (holds : value -> Prop) (o : option value) : Prop :=
  absent o = true \/ exists x, o = Some x /\ holds x.

Definition is_number (v : value) : Prop := exists x, v = VNumber x.
Definition is_string (v : value) : Prop := exists s, v = VString s.
Definition is_boolean (v : value) : Prop := exists b, v = VBool b.

(** A value that is not a primitive: an object, an array, a [Date] or an
    instance of a class. *)
Definition non_primitive (v : value) : Prop :=
  match v with
  | VObject _ | VArray _ | VDate _ | VHost _ => True
  | _ => False
  end.

End Types.

(* ===================================================================== *)
(** ** The precise histogram *)
(* ===================================================================== *)

Module Hdr.

#[local] Open Scope Z_scope.

(** Modelled from the spec: the configuration of [PreciseHdrHistogram]
    (module '../../PreciseHdrHistogram', imported by [types.ts] and absent
    from the sources): "a configured maximum trackable value and
    significant-digit precision". *)
Record Config : Type := {
  maxTrackableValue : Z;
  significantDigits : nat
}.

(** Modelled from the spec: the state of [PreciseHdrHistogram], "an
    accumulator over latency samples".  Latencies are whole numbers of the
    histogram's unit.  [counts] maps the lowest value of a bucket to the
    number of samples recorded in that bucket. *)
Record PreciseHdrHistogram : Type := {
  config : Config;
  counts : gmap Z N
}.

(** Modelled from the spec: [HistogramError], "attempt to record a negative
    or non-finite latency". *)
Inductive HistogramError : Type :=
| NegativeLatency (latency : Z).

(** Modelled from the spec: the bucket layout of [PreciseHdrHistogram],
    "logarithmic-with-linear-subdivision so that precision is proportional
    to value magnitude".  The values from [2^e] up to [2^(e+1)] are cut
    into [2^subBucketMagnitude] buckets of equal width, and
    [2^subBucketMagnitude] is the least power of two that is at least
    [10^significantDigits]. *)
Definition subBucketMagnitude (cfg : Config) : Z :=
  Z.log2_up (2 * 10 ^ Z.of_nat (significantDigits cfg)) - 1.

(** Modelled from the spec: the bucket layout of [PreciseHdrHistogram]; the
    width of the bucket of [v] is [2^bucketShift], one for the values below
    [2^(subBucketMagnitude + 1)]. *)
Definition bucketShift (cfg : Config) (v : Z) : Z :=
  Z.max 0 (Z.log2 v - subBucketMagnitude cfg).

(** Modelled from the spec: the bucket layout of [PreciseHdrHistogram]; the
    lowest value that falls in the same bucket as [v]. *)
Definition lowestEquivalentValue (cfg : Config) (v : Z) : Z :=
  Z.shiftl (Z.shiftr v (bucketShift cfg v)) (bucketShift cfg v).

(** Modelled from the spec: the histogram's "configured error bound": a
    relative error of [10^-significantDigits], taken at the value [v]. *)
Definition errorBound (cfg : Config) (v : Z) : Z :=
  v / 10 ^ Z.of_nat (significantDigits cfg).

(** Modelled from the spec: a new [PreciseHdrHistogram], with nothing
    recorded. *)
Definition empty (cfg : Config) : PreciseHdrHistogram :=
  {| config := cfg; counts := ∅ |}.

(** One more sample in a bucket; a bucket that is not in [counts] holds
    none. *)
Definition increment (o : option N) : option N := Some (default 0%N o + 1)%N.

(** Modelled from the spec: [record(latency)] of [PreciseHdrHistogram].  A
    negative latency is "rejected at the point of recording"; a value above
    [maxTrackableValue] is recorded all the same (the histogram works
    "without requiring the maximum value to be known up front"). *)
Definition record (h : PreciseHdrHistogram) (latency : Z)
  : HistogramError + PreciseHdrHistogram :=
  if decide (latency < 0) then inl (NegativeLatency latency)
  else inr {| config := config h;
              counts := partial_alter increment
                          (lowestEquivalentValue (config h) latency) (counts h) |}.

(** Modelled from the spec: one sample of a stream; on a [HistogramError]
    "the offending sample is dropped", and the histogram stays as it
    was. *)
Definition recordOrDrop (h : PreciseHdrHistogram) (latency : Z) : PreciseHdrHistogram :=
  match record h latency with
  | inr h' => h'
  | inl _ => h
  end.

(** Modelled from the spec: recording a stream of samples into a
    [PreciseHdrHistogram], in arrival order. *)
Definition recordAll (h : PreciseHdrHistogram) (samples : list Z) : PreciseHdrHistogram :=
  foldl recordOrDrop h samples.

(** Modelled from the spec: the [PreciseHdrHistogram] built from a stream
    of samples with the configuration [cfg]. *)
Definition build (cfg : Config) (samples : list Z) : PreciseHdrHistogram :=
  recordAll (empty cfg) samples.

(** Modelled from the spec: [merge(other)] of [PreciseHdrHistogram]; the
    receiver's configuration is kept and the counts are added bucket by
    bucket. *)
Definition merge (h other : PreciseHdrHistogram) : PreciseHdrHistogram :=
  {| config := config h;
     counts := union_with (fun a b => Some (a + b)%N) (counts h) (counts other) |}.

(** The samples in a list of buckets. *)
Definition sumCounts (bs : list (Z * N)) : N :=
  foldr (fun b acc => (b.2 + acc)%N) 0%N bs.

(** Modelled from the spec: [totalCount] of [PreciseHdrHistogram]. *)
Definition totalCount (h : PreciseHdrHistogram) : N :=
  sumCounts (map_to_list (counts h)).

(** The order of the buckets: by the values they hold. *)
Definition bucket_le (a b : Z * N) : Prop := a.1 <= b.1.

#[global] Instance bucket_le_dec a b : Decision (bucket_le a b).
Proof. unfold bucket_le. apply _. Defined.

(** Modelled from the spec: the buckets of a [PreciseHdrHistogram] in
    increasing order of value, as [percentile] walks them. *)
Definition sortedBuckets (h : PreciseHdrHistogram) : list (Z * N) :=
  merge_sort bucket_le (map_to_list (counts h)).

(** Modelled from the spec: the walk of [percentile]; the first bucket at
    which the running count reaches [target]. *)
Fixpoint valueAtCount (target acc : N) (bs : list (Z * N)) : option Z :=
  match bs with
  | [] => None
  | (v, c) :: rest =>
      if (target <=? acc + c)%N then Some v
      else valueAtCount target (acc + c)%N rest
  end.

(** Modelled from the spec: the number of samples that [p] percent of the
    recorded ones amount to, rounded up, and at least one. *)
Definition countAtPercentile (h : PreciseHdrHistogram) (p : Q) : N :=
  N.max 1 (Z.to_N (Qceiling (p * inject_Z (Z.of_N (totalCount h)) / 100))).

(** Modelled from the spec: [percentile(p)] of [PreciseHdrHistogram], "the
    value below which a given percentage of recorded samples fall",
    reported as the lowest value of its bucket.  Past the last bucket the
    answer is the highest recorded bucket; an empty histogram answers 0. *)
Definition percentile (h : PreciseHdrHistogram) (p : Q) : Z :=
  let bs := sortedBuckets h in
  match valueAtCount (countAtPercentile h p) 0 bs with
  | Some v => v
  | None => List.last bs.*1 0
  end.

(** Every bucket that is kept holds at least one sample. *)
Definition populated (h : PreciseHdrHistogram) : Prop :=
  forall k c, counts h !! k = Some c -> (0 < c)%N.

(** The largest of a stream of samples ([0] for the empty stream). *)
Definition maximum (samples : list Z) : Z := foldr Z.max 0 samples.

End Hdr.


(* ===================================================================== *)
(** ** The basic histogram *)
(* ===================================================================== *)

Module Basic.

#[local] Open Scope Z_scope.

(** [export interface HistBucket]: "There are 'count' values in the bucket
    greater than 'gte'.  'count1stHalf' is the bucket count just looking at
    the first half of the data".  Values are whole numbers of the latency
    unit. *)
Record HistBucket : Type := {
  gte : Z;
  count : N;
  count1stHalf : N
}.

(** [export interface BasicHistogram] *)
Record BasicHistogram : Type := {
  buckets : list HistBucket;
  outliersRemoved : N
}.

(** Modelled from the spec: the configuration of the Basic Histogram
    Builder (the [histogram()] that [types.ts] refers to is absent from the
    sources): "fixed equal-width bucket boundaries", and the "configured
    acceptable range" of the outlier policy, which is the range the buckets
    cover, from [minBound] up to [maxBound]. *)
Record BucketConfig : Type := {
  minBound : Z;
  bucketWidth : Z;
  bucketCount : nat
}.

(** Modelled from the spec: the upper end of the acceptable range, "a
    configured maximum bound". *)
Definition maxBound (cfg : BucketConfig) : Z :=
  minBound cfg + bucketWidth cfg * Z.of_nat (bucketCount cfg).

(** Modelled from the spec: the state of the Basic Histogram Builder. *)
Record Builder : Type := {
  bucketConfig : BucketConfig;
  bins : list HistBucket;
  outliers : N
}.

(** Modelled from the spec: the [i]-th of the equal-width buckets, before
    any sample. *)
Definition emptyBucket (cfg : BucketConfig) (i : nat) : HistBucket :=
  {| gte := minBound cfg + bucketWidth cfg * Z.of_nat i;
     count := 0;
     count1stHalf := 0 |}.

(** Modelled from the spec: "configure fixed equal-width bucket boundaries". *)
Definition configure (cfg : BucketConfig) : Builder :=
  {| bucketConfig := cfg;
     bins := emptyBucket cfg <$> seq 0 (bucketCount cfg);
     outliers := 0 |}.

(** Modelled from the spec: "a sample is counted in count1stHalf iff its
    arrival index falls within the first 50% of the eventually-known total
    sample count" (arrival indices start at 0). *)
Definition inFirstHalf (arrivalIndex totalExpectedCount : nat) : bool :=
  (2 * arrivalIndex <? totalExpectedCount)%nat.

(** Modelled from the spec: one more sample in a bucket, counted in
    [count1stHalf] too when it arrived in the first half. *)
Definition addSample (firstHalf : bool) (b : HistBucket) : HistBucket :=
  {| gte := gte b;
     count := count b + 1;
     count1stHalf := if firstHalf then (count1stHalf b + 1)%N else count1stHalf b |}.

(** Modelled from the spec: the bucket of a latency within the acceptable
    range. *)
Definition bucketIndex (cfg : BucketConfig) (latency : Z) : nat :=
  Z.to_nat ((latency - minBound cfg) / bucketWidth cfg).

(** Modelled from the spec: [record(latency, arrivalIndex,
    totalExpectedCount)] of the Basic Histogram Builder.  A negative latency
    is a [HistogramError]; a latency outside the acceptable range is "an
    outlier (excluded from bucket counts, counted in outliersRemoved)". *)
Definition record (b : Builder) (latency : Z) (arrivalIndex totalExpectedCount : nat)
  : Hdr.HistogramError + Builder :=
  let cfg := bucketConfig b in
  if decide (latency < 0) then inl (Hdr.NegativeLatency latency)
  else if decide (minBound cfg <= latency < maxBound cfg) then
    inr {| bucketConfig := cfg;
           bins := alter (addSample (inFirstHalf arrivalIndex totalExpectedCount))
                         (bucketIndex cfg latency) (bins b);
           outliers := outliers b |}
  else
    inr {| bucketConfig := cfg; bins := bins b; outliers := outliers b + 1 |}.

(** Modelled from the spec: [finalize() -> BasicHistogram]. *)
Definition finalize (b : Builder) : BasicHistogram :=
  {| buckets := bins b; outliersRemoved := outliers b |}.

(** Modelled from the spec: feeding the builder the samples that arrive
    from index [arrivalIndex] on; a rejected sample is dropped. *)
Fixpoint recordFrom (b : Builder) (arrivalIndex totalExpectedCount : nat)
    (samples : list Z) : Builder :=
  match samples with
  | [] => b
  | latency :: rest =>
      let b' := match record b latency arrivalIndex totalExpectedCount with
                | inr b' => b'
                | inl _ => b
                end in
      recordFrom b' (S arrivalIndex) totalExpectedCount rest
  end.

(** Modelled from the spec: the builder run over the latencies of a whole
    stream, as a "second pass" once the total sample count is known. *)
Definition histogramOfLatencies (cfg : BucketConfig) (latencies : list Z)
  : BasicHistogram :=
  finalize (recordFrom (configure cfg) 0 (length latencies) latencies).

(** Modelled from the spec: the "Raw sample event" that a Tool Adapter
    produces, "{ timestamp, latency (duration, >= 0), bytes (>= 0),
    success: bool }"; latency and bytes are not negative, by their type. *)
Record RawSample : Type := {
  timestamp : Z;
  latency : N;
  bytes : N;
  success : bool
}.

(** Modelled from the spec: the Basic Histogram Builder fed a sample
    stream, "in arrival order"; it records the latency of every event. *)
Definition histogram (cfg : BucketConfig) (samples : list RawSample) : BasicHistogram :=
  histogramOfLatencies cfg ((fun s => Z.of_N (latency s)) <$> samples).

(** The samples in all buckets together. *)
Definition bucketedCount (bs : list HistBucket) : N :=
  foldr (fun b acc => (count b + acc)%N) 0%N bs.



(** The records as the run-time values that [types.ts] types. *)
Definition number (z : Z) : TS.value := TS.VNumber (inject_Z z).

Definition HistBucket_value (b : HistBucket) : TS.value :=
  TS.obj [ ("gte", number (gte b));
           ("count", number (Z.of_N (count b)));
           ("count1stHalf", number (Z.of_N (count1stHalf b))) ].

Definition BasicHistogram_value (h : BasicHistogram) : TS.value :=
  TS.obj [ ("buckets", TS.VArray (HistBucket_value <$> buckets h));
           ("outliersRemoved", number (Z.of_N (outliersRemoved h))) ].

End Basic.

(* ===================================================================== *)
(** ** Sample values *)
(* ===================================================================== *)

Module Samples.
Import TS Types.

(** An oracle for the imported types: every one of them is an object type
    or a class, so it accepts objects and class instances. *)
Definition ext_objects (name : string) (v : value) : bool :=
  match v with
  | VObject _ | VHost _ => true
  | _ => false
  end.

Definition parsed_row : value :=
  obj [ ("value", VString "0.251");
        ("percentile", VString "0.000000");
        ("totalCount", VString "1");
        ("ofOnePercentile", VString "1.00") ].

Definition summary_json : value :=
  obj [ ("p50", VNumber 12);
        ("max", VNumber 40);
        ("totalCount", VNumber 1);
        ("mean", VNumber 12);
        ("min", VNumber 12);
        ("stdDeviation", VNumber 0) ].

(** A report with neither of the optional blocks. *)
Definition metrics_plain : value :=
  obj [ ("name", VString "SearchAlbums");
        ("time", obj [ ("start", VString "2021-03-01T10:00:00Z");
                       ("end", VDate 1614592830000) ]);
        ("requests", obj [ ("count", VNumber 3000); ("average", VNumber 100) ]);
        ("response", obj [ ("totalBytes", VNumber 1200000);
                           ("bytesPerSecond", VNumber 40000) ]);
        ("histogram", obj [ ("json", summary_json);
                            ("parsedStats", VArray [parsed_row]) ]) ].

Definition hasura_checks : value :=
  obj [ ("bytes_allocated_per_request", VNumber 52000);
        ("live_bytes_before", VNumber 1000000);
        ("live_bytes_after", VNumber 1400000);
        ("mem_in_use_bytes_before", VNumber 9000000);
        ("mem_in_use_bytes_after", VNumber 12000000) ].

(** A report with both optional blocks. *)
Definition metrics_full : value :=
  obj [ ("name", VString "SearchAlbums");
        ("time", obj [ ("start", VString "2021-03-01T10:00:00Z");
                       ("end", VString "2021-03-01T10:00:30Z") ]);
        ("requests", obj [ ("count", VNumber 3000); ("average", VNumber 100) ]);
        ("response", obj [ ("totalBytes", VNumber 1200000);
                           ("bytesPerSecond", VNumber 40000) ]);
        ("histogram", obj [ ("json", summary_json);
                            ("parsedStats", VArray [parsed_row]) ]);
        ("basicHistogram",
          obj [ ("buckets",
                  VArray [ obj [ ("gte", VNumber 0); ("count", VNumber 1);
                                 ("count1stHalf", VNumber 0) ] ]);
                ("outliersRemoved", VNumber 0) ]);
        ("extended_hasura_checks", hasura_checks) ].

(** A requests-per-second benchmark that names no tool. *)
Definition benchmark_without_tools : value :=
  obj [ ("name", VString "SearchAlbums");
        ("tools", VArray []);
        ("execution_strategy", VString "REQUESTS_PER_SECOND");
        ("query", VString "query { albums { id } }");
        ("rps", VNumber 100);
        ("duration", VString "30s") ].

(** A requests-per-second benchmark run with two tools. *)
Definition benchmark_rps : value :=
  obj [ ("name", VString "SearchAlbums");
        ("tools", VArray [VString "k6"; VString "wrk2"]);
        ("execution_strategy", VString "REQUESTS_PER_SECOND");
        ("query", VString "query { albums { id } }");
        ("rps", VNumber 100);
        ("duration", VString "30s") ].

(** A custom benchmark for k6 whose options name no tool. *)
Definition benchmark_custom_no_options : value :=
  obj [ ("name", VString "SearchAlbums");
        ("tools", VArray [VString "k6"]);
        ("execution_strategy", VString "CUSTOM");
        ("query", VString "query { albums { id } }");
        ("options", obj []) ].

(** A custom benchmark for k6 with options for k6. *)
Definition benchmark_custom_k6 : value :=
  obj [ ("name", VString "SearchAlbums");
        ("tools", VArray [VString "k6"]);
        ("execution_strategy", VString "CUSTOM");
        ("query", VString "query { albums { id } }");
        ("options", obj [ ("k6", obj [ ("vus", VNumber 10) ]) ]) ].

Definition hdr_config : Hdr.Config :=
  {| Hdr.maxTrackableValue := 3600000000; Hdr.significantDigits := 3 |}.

Definition bucket_config : Basic.BucketConfig :=
  {| Basic.minBound := 0; Basic.bucketWidth := 250; Basic.bucketCount := 4 |}.

Definition latencies : list Z := [5; 100; 1000; 12345; 999; 300; 257; 250]%Z.

(** A stream of eight successful requests, one every 10 ms, with the
    latencies above. *)
Definition events : list Basic.RawSample :=
  imap (fun i v => {| Basic.timestamp := 10 * Z.of_nat i;
                      Basic.latency := Z.to_N v;
                      Basic.bytes := 400;
                      Basic.success := true |}) latencies.

(** A fixed-request-number benchmark, with the optional common fields. *)
Definition benchmark_fixed : value :=
  obj [ ("name", VString "AlbumByPK");
        ("tools", VArray [VString "autocannon"]);
        ("execution_strategy", VString "FIXED_REQUEST_NUMBER");
        ("query", VString "query ($id: Int!) { albums_by_pk(id: $id) { id } }");
        ("variables", obj [ ("id", VNumber 7) ]);
        ("connections", VNumber 50);
        ("requests", VNumber 10000) ].

(** A max-requests-in-duration benchmark. *)
Definition benchmark_max_requests : value :=
  obj [ ("name", VString "SearchAlbums");
        ("tools", VArray [VString "wrk2"]);
        ("execution_strategy", VString "MAX_REQUESTS_IN_DURATION");
        ("query", VString "query { albums { id } }");
        ("duration", VString "10s") ].

(** A multi-stage benchmark with two stages. *)
Definition benchmark_multi_stage : value :=
  obj [ ("name", VString "SearchAlbums");
        ("tools", VArray [VString "k6"]);
        ("execution_strategy", VString "MULTI_STAGE");
        ("query", VString "query { albums { id } }");
        ("initial_rps", VNumber 0);
        ("stages", VArray [ obj [ ("duration", VString "5s"); ("target", VNumber 100) ];
                            obj [ ("duration", VString "5s"); ("target", VNumber 1000) ] ]) ].

(** A configuration file with two benchmarks, run in sequence. *)
Definition global_config : value :=
  obj [ ("url", VString "http://localhost:8085/v1/graphql");
        ("headers", obj [ ("X-Hasura-Admin-Secret", VString "my-secret") ]);
        ("queries", VArray [benchmark_rps; benchmark_fixed]);
        ("debug", VBool false);
        ("execution_mode", VString "SYNC") ].

(** The parameters a report is assembled from. *)
Definition metric_params : value :=
  obj [ ("name", VString "SearchAlbums");
        ("histogram", VHost "PreciseHdrHistogram");
        ("time", obj [ ("start", VDate 1614592800000);
                       ("end", VDate 1614592830000) ]);
        ("requests", obj [ ("count", VNumber 3000); ("average", VNumber 100) ]);
        ("response", obj [ ("totalBytes", VNumber 1200000);
                           ("bytesPerSecond", VNumber 40000) ]);
        ("geoMean", VNumber 11);
        ("p501stHalf", VNumber 12) ].

End Samples.

(* ===================================================================== *)
(** * Properties of the type declarations *)
(* ===================================================================== *)

Section ConformanceFacts.
Import TS.

Variable ext : string -> value -> bool.

Lemma get_nil (v : value) : get [] v = Some v.
Proof. reflexivity. Qed.

Lemma get_object (name : string) (rest : list string) (props : gmap string value) :
  get (name :: rest) (VObject props) = props !! name ≫= get rest.
Proof. simpl. destruct (props !! name); reflexivity. Qed.

Lemma get_step (name : string) (rest : list string) (v x : value) :
  get [name] v = Some x -> get (name :: rest) v = get rest x.
Proof.
  destruct v; simpl; try discriminate.
  destruct (props !! name); [intros [= ->]; reflexivity | discriminate].
Qed.

(** An object type accepts objects only, field by field. *)
Lemma conforms_object (fields : list field) (v : value) :
  conforms ext (TObject fields) v = true <->
  exists props, v = VObject props /\
                forallb (conforms_field ext props) fields = true.
Proof.
  split.
  - destruct v; simpl; try discriminate. intros H. exists props. split; [reflexivity|].
    induction fields as [|[name [optional ft]] rest IH]; [reflexivity|].
    simpl. apply andb_true_iff in H as [H1 H2].
    apply andb_true_iff. split; [exact H1 | apply IH, H2].
  - intros (props & -> & H). simpl.
    induction fields as [|[name [optional ft]] rest IH]; [reflexivity|].
    simpl in H. apply andb_true_iff in H as [H1 H2].
    apply andb_true_iff. split; [exact H1 | apply IH, H2].
Qed.

(** What a declared field says about a conforming value. *)
Lemma conforms_field_decl (t : ty) (v : value) (name : string)
    (optional : bool) (ft : ty) :
  conforms ext t v = true ->
  field_decl name t = Some (optional, ft) ->
  exists props, v = VObject props /\
    match props !! name with
    | None | Some VUndefined => optional = true
    | Some x => conforms ext ft x = true
    end.
Proof.
  destruct t; try discriminate. intros Hc Hd.
  apply conforms_object in Hc as (props & -> & Hall).
  exists props. split; [reflexivity|].
  unfold field_decl in Hd.
  induction fields as [|[n [o t']] rest IH]; [discriminate|].
  simpl in Hall, Hd. apply andb_true_iff in Hall as [H1 H2].
  unfold string_eqb in Hd at 1. simpl in Hd. case_bool_decide as Hn.
  - injection Hd as <- <-. subst n. unfold conforms_field in H1. simpl in H1.
    destruct (props !! name) as [[]|]; auto.
  - apply IH; assumption.
Qed.

(** A required field is there, defined, and of its declared type. *)
Lemma conforms_required (t : ty) (v : value) (name : string) (ft : ty) :
  conforms ext t v = true ->
  field_decl name t = Some (false, ft) ->
  exists x, get [name] v = Some x /\ x <> VUndefined /\ conforms ext ft x = true.
Proof.
  intros Hc Hd.
  destruct (conforms_field_decl _ _ _ _ _ Hc Hd) as (props & -> & H).
  rewrite get_object. destruct (props !! name) as [x|]; [|discriminate].
  exists x. split; [reflexivity|].
  destruct x; try discriminate; split; first [discriminate | exact H].
Qed.

(** An optional field is absent, or of its declared type. *)
Lemma conforms_optional (t : ty) (v : value) (name : string) (ft : ty) :
  conforms ext t v = true ->
  field_decl name t = Some (true, ft) ->
  absent (get [name] v) = true \/
  exists x, get [name] v = Some x /\ x <> VUndefined /\ conforms ext ft x = true.
Proof.
  intros Hc Hd.
  destruct (conforms_field_decl _ _ _ _ _ Hc Hd) as (props & -> & H).
  rewrite get_object. destruct (props !! name) as [x|]; [|left; reflexivity].
  destruct x; try (left; reflexivity);
    right; eexists; (split; [reflexivity|]); split; first [discriminate | exact H].
Qed.

(** Every path of required fields leads to a defined value of the
    declared type. *)
Lemma conforms_required_at (path : list string) (t t' : ty) (v : value) :
  conforms ext t v = true ->
  required_at path t = Some t' ->
  exists x, get path v = Some x /\ conforms ext t' x = true /\
            (path <> [] -> x <> VUndefined).
Proof.
  revert t v. induction path as [|name rest IH]; intros t v Hc Hr.
  - injection Hr as <-. exists v. split; [reflexivity|]. split; [assumption|].
    intros Hne. contradiction Hne. reflexivity.
  - simpl in Hr. destruct (field_decl name t) as [[[] ft]|] eqn:Hd; try discriminate.
    destruct (conforms_required _ _ _ _ Hc Hd) as (x & Hx & Hdef & Hcx).
    destruct (IH _ _ Hcx Hr) as (y & Hy & Hcy & Hny).
    exists y. rewrite (get_step _ _ _ _ Hx).
    split; [assumption|]. split; [assumption|].
    intros _. destruct rest; [|apply Hny; discriminate].
    injection Hy as <-. exact Hdef.
Qed.

Lemma present_required_at (path : list string) (t t' : ty) (v : value) :
  conforms ext t v = true ->
  required_at path t = Some t' ->
  path <> [] ->
  present path v = true.
Proof.
  intros Hc Hr Hne.
  destruct (conforms_required_at _ _ _ _ Hc Hr) as (x & Hx & _ & Hdef).
  unfold present. rewrite Hx. specialize (Hdef Hne).
  destruct x; first [reflexivity | contradiction Hdef; reflexivity].
Qed.

Lemma conforms_string (v : value) :
  conforms ext TString v = true -> exists s, v = VString s.
Proof. destruct v; try discriminate. eauto. Qed.

Lemma conforms_number (v : value) :
  conforms ext TNumber v = true -> exists x, v = VNumber x.
Proof. destruct v; try discriminate. eauto. Qed.

Lemma conforms_lit (s : string) (v : value) :
  conforms ext (TLit s) v = true -> v = VString s.
Proof.
  destruct v; try discriminate. simpl. unfold string_eqb.
  intros H%bool_decide_eq_true. congruence.
Qed.

Lemma conforms_enum (members : list string) (v : value) :
  conforms ext (TEnum members) v = true ->
  exists s, v = VString s /\ s ∈ members.
Proof.
  destruct v; try discriminate. simpl. intros H.
  apply existsb_exists in H as (m & Hin & Heq).
  apply bool_decide_eq_true in Heq. subst m.
  exists s. split; [reflexivity | apply list_elem_of_In, Hin].
Qed.

Lemma conforms_array (elem : ty) (v : value) :
  conforms ext (TArray elem) v = true ->
  exists items, v = VArray items /\
                Forall (fun x => conforms ext elem x = true) items.
Proof.
  destruct v; try discriminate. simpl. intros H.
  exists items. split; [reflexivity|]. apply Forall_forall.
  intros x Hx. rewrite forallb_forall in H. apply H, list_elem_of_In, Hx.
Qed.

Lemma conforms_union (l r : ty) (v : value) :
  conforms ext (TUnion l r) v = true ->
  conforms ext l v = true \/ conforms ext r v = true.
Proof. simpl. apply orb_true_iff. Qed.

Lemma conforms_inter (base own : ty) (v : value) :
  conforms ext (TInter base own) v = true ->
  conforms ext base v = true /\ conforms ext own v = true.
Proof. simpl. apply andb_true_iff. Qed.

End ConformanceFacts.

Section DeclarationFacts.
Import TS Types.

Variable ext : string -> value -> bool.

(** Every variant of [Benchmark] extends [_BenchmarkRunConfig]. *)
Lemma Benchmark_run_config (b : value) :
  conforms ext Benchmark b = true ->
  conforms ext _BenchmarkRunConfig b = true.
Proof.
  unfold Benchmark. intros H.
  repeat (apply conforms_union in H as [H|H]);
    apply conforms_inter in H as [H _]; exact H.
Qed.

(** The tag of a value of a variant is the variant's literal. *)
Lemma variant_tag (tag : string) (own : list field) (b : value) :
  conforms ext (TInter _BenchmarkRunConfig
                  (TObject (req "execution_strategy" (TLit tag) :: own))) b = true ->
  get ["execution_strategy"] b = Some (VString tag).
Proof.
  intros H. apply conforms_inter in H as [_ H].
  eapply conforms_required in H as (x & Hx & _ & Hc).
  2:{ unfold field_decl, string_eqb. simpl. rewrite bool_decide_eq_true_2 by reflexivity.
      reflexivity. }
  apply conforms_lit in Hc. subst x. exact Hx.
Qed.

(** [execution_strategy] discriminates the union: a benchmark tagged
    ['CUSTOM'] is a [CustomBenchmark]. *)
Lemma Benchmark_custom (b : value) :
  conforms ext Benchmark b = true ->
  get ["execution_strategy"] b = Some (VString "CUSTOM") ->
  conforms ext CustomBenchmark b = true.
Proof.
  unfold Benchmark. intros H Htag.
  repeat (apply conforms_union in H as [H|H]); try exact H;
    apply variant_tag in H; rewrite H in Htag; discriminate.
Qed.

(** A required field declared [string] holds a string; one declared
    [number] holds a number. *)
Lemma required_string (t : ty) (v : value) (name : string) :
  conforms ext t v = true ->
  field_decl name t = Some (false, TString) ->
  exists s, get [name] v = Some (VString s).
Proof.
  intros H Hd. destruct (conforms_required _ _ _ _ _ H Hd) as (x & Hx & _ & Hc).
  apply conforms_string in Hc as (s & ->). exists s. exact Hx.
Qed.

Lemma required_number (t : ty) (v : value) (name : string) :
  conforms ext t v = true ->
  field_decl name t = Some (false, TNumber) ->
  exists x, get [name] v = Some (VNumber x).
Proof.
  intros H Hd. destruct (conforms_required _ _ _ _ _ H Hd) as (x & Hx & _ & Hc).
  apply conforms_number in Hc as (y & ->). exists y. exact Hx.
Qed.

(** The rows of [histogram.parsedStats] are [HDRHistogramParsedStats]. *)
Lemma BenchmarkMetrics_parsedStats (m : value) (rows : list value) :
  conforms ext BenchmarkMetrics m = true ->
  get ["histogram"; "parsedStats"] m = Some (VArray rows) ->
  Forall (fun row => conforms ext HDRHistogramParsedStats row = true) rows.
Proof.
  intros H Hrows.
  eapply (conforms_required_at _ ["histogram"; "parsedStats"]) in H
    as (x & Hx & Hc & _); [|reflexivity].
  rewrite Hrows in Hx. injection Hx as <-.
  apply conforms_array in Hc as (items & [= <-] & Hall). exact Hall.
Qed.

End DeclarationFacts.

Section DeclarationClaims.
  Import TS Types Samples.

(** C5 (as amended).  Every value of type [BenchmarkMetrics] has [name],
    [time.start], [time.end], [requests.count], [requests.average],
    [response.totalBytes], [response.bytesPerSecond], and a [histogram]
    whose two declared fields are named [json] and [parsedStats], both
    present; [basicHistogram] and [extended_hasura_checks] are declared
    optional. *)
Theorem BenchmarkMetrics_fields (ext : string -> value -> bool) (m : value) :
  conforms ext BenchmarkMetrics m = true ->
  Forall (fun path => present path m = true)
    [ ["name"];
      ["time"; "start"]; ["time"; "end"];
      ["requests"; "count"]; ["requests"; "average"];
      ["response"; "totalBytes"]; ["response"; "bytesPerSecond"];
      ["histogram"; "json"]; ["histogram"; "parsedStats"] ] /\
  field_names histogram_ty = ["json"; "parsedStats"] /\
  field_decl "basicHistogram" BenchmarkMetrics = Some (true, BasicHistogram_ty) /\
  field_decl "extended_hasura_checks" BenchmarkMetrics
    = Some (true, extended_hasura_checks_ty).
Proof.
  intros H. split; [|repeat split].
  repeat apply Forall_cons_2; try apply Forall_nil_2;
    (eapply present_required_at; [exact H | reflexivity | discriminate]).
Qed.

Lemma BenchmarkMetrics_fields_witness :
  conforms ext_objects BenchmarkMetrics metrics_plain = true /\
  present ["histogram"; "json"] metrics_plain = true.
Proof.
  split; [vm_compute; reflexivity|].
  destruct (BenchmarkMetrics_fields ext_objects metrics_plain) as [Hall _];
    [vm_compute; reflexivity|].
  rewrite Forall_forall in Hall. apply Hall.
  do 7 apply list_elem_of_further. apply list_elem_of_here.
Defined.

(** C5, as stated, fails: a report that conforms to [BenchmarkMetrics]
    and has no [histogram.summary] (its summary is [histogram.json]). *)
Lemma BenchmarkMetrics_without_summary :
  conforms ext_objects BenchmarkMetrics metrics_plain = true /\
  present ["histogram"; "summary"] metrics_plain = false /\
  present ["histogram"; "json"] metrics_plain = true.
Proof. vm_compute. repeat split. Qed.

(** C6 (as amended).  For every value of type [Benchmark], whichever of
    the five variants it is, [tools] is an array and each of its elements
    is one of the values of the enum [BenchmarkTool]; the array may be
    empty: there is a [Benchmark] whose [tools] is [[]]. *)
Theorem Benchmark_tools (ext : string -> value -> bool) (b : value) :
  conforms ext Benchmark b = true ->
  (exists tools, get ["tools"] b = Some (VArray tools) /\
     Forall (fun t => exists tool : BenchmarkTool,
                        t = VString (BenchmarkTool_value tool)) tools) /\
  (exists b0, conforms ext Benchmark b0 = true /\
              get ["tools"] b0 = Some (VArray [])).
Proof.
  intros H. split.
  2:{ exists benchmark_without_tools. vm_compute. split; reflexivity. }
  apply Benchmark_run_config in H.
  eapply (conforms_required _ _ _ "tools") in H as (x & Hx & _ & Hc); [|reflexivity].
  apply conforms_array in Hc as (tools & -> & Hall).
  exists tools. split; [exact Hx|].
  eapply Forall_impl; [exact Hall|]. intros t Ht.
  apply conforms_enum in Ht as (s & -> & Hin).
  apply list_elem_of_fmap in Hin as (tool & -> & _). exists tool. reflexivity.
Qed.

Lemma Benchmark_tools_witness :
  conforms ext_objects Benchmark benchmark_rps = true /\
  exists tools, get ["tools"] benchmark_rps = Some (VArray tools) /\
    Forall (fun t => exists tool : BenchmarkTool,
                       t = VString (BenchmarkTool_value tool)) tools.
Proof.
  split; [vm_compute; reflexivity|].
  apply (proj1 (Benchmark_tools ext_objects benchmark_rps ltac:(vm_compute; reflexivity))).
Defined.

(** C6, as stated, fails: a value of type [Benchmark] whose [tools] is the
    empty array. *)
Lemma Benchmark_with_empty_tools :
  conforms ext_objects Benchmark benchmark_without_tools = true /\
  get ["tools"] benchmark_without_tools = Some (VArray []).
Proof. vm_compute. split; reflexivity. Qed.

(** C7 (as amended).  For every [Benchmark] tagged ['CUSTOM'], [options]
    is an object whose declared entries are [k6] and [autocannon] (there is
    none for [wrk2]); each of the two is optional, whatever the declared
    tools: there is a ['CUSTOM'] benchmark whose [options] has no entry. *)
Theorem CustomBenchmark_options_entries (ext : string -> value -> bool) (b : value) :
  conforms ext Benchmark b = true ->
  get ["execution_strategy"] b = Some (VString "CUSTOM") ->
  exists options, get ["options"] b = Some (VObject options) /\
    options_entry ext (VObject options) "k6" "K6Options" /\
    options_entry ext (VObject options) "autocannon" "AutocannonOptions" /\
    field_names CustomBenchmark_options = ["k6"; "autocannon"] /\
    Forall (fun f : field => f.2.1 = true)
      (match CustomBenchmark_options with TObject fs => fs | _ => [] end) /\
    (exists b0, conforms ext Benchmark b0 = true /\
                get ["execution_strategy"] b0 = Some (VString "CUSTOM") /\
                get ["options"] b0 = Some (VObject ∅)).
Proof.
  intros H Htag. apply Benchmark_custom in H; [|exact Htag].
  apply conforms_inter in H as [_ H].
  eapply (conforms_required _ _ _ "options") in H as (x & Hx & _ & Hc); [|reflexivity].
  pose proof Hc as Hobj. apply conforms_object in Hobj as (options & -> & _).
  exists options. split; [exact Hx|].
  split; [|split; [|split; [reflexivity | split; [repeat constructor|]]]].
  3:{ exists benchmark_custom_no_options. vm_compute. repeat split. }
  - destruct (conforms_optional _ _ _ "k6" _ Hc eq_refl) as [Ha|(y & Hy & _ & Hcy)];
      [left; exact Ha | right; exists y; split; [exact Hy | exact Hcy]].
  - destruct (conforms_optional _ _ _ "autocannon" _ Hc eq_refl) as [Ha|(y & Hy & _ & Hcy)];
      [left; exact Ha | right; exists y; split; [exact Hy | exact Hcy]].
Qed.

Lemma CustomBenchmark_options_entries_witness :
  conforms ext_objects Benchmark benchmark_custom_k6 = true /\
  exists options, get ["options"] benchmark_custom_k6 = Some (VObject options) /\
    options_entry ext_objects (VObject options) "k6" "K6Options".
Proof.
  split; [vm_compute; reflexivity|].
  destruct (CustomBenchmark_options_entries ext_objects benchmark_custom_k6)
    as (options & Ho & Hk6 & _); [vm_compute; reflexivity..|].
  exists options. split; assumption.
Defined.

(** C7, as stated, fails: a ['CUSTOM'] benchmark that declares the tool
    [k6] and whose [options] has no entry at all conforms to [Benchmark]. *)
Lemma CustomBenchmark_without_options :
  conforms ext_objects Benchmark benchmark_custom_no_options = true /\
  get ["execution_strategy"] benchmark_custom_no_options = Some (VString "CUSTOM") /\
  get ["tools"] benchmark_custom_no_options = Some (VArray [VString "k6"]) /\
  get ["options"] benchmark_custom_no_options = Some (VObject ∅).
Proof. vm_compute. repeat split. Qed.

(** C9.  Every row of type [HDRHistogramParsedStats] carries [value],
    [percentile], [totalCount] and [ofOnePercentile], each of them a
    string and none of them a number. *)
Theorem HDRHistogramParsedStats_strings (ext : string -> value -> bool) (row : value) :
  conforms ext HDRHistogramParsedStats row = true ->
  Forall (fun name =>
            (exists s, get [name] row = Some (VString s)) /\
            (forall x, get [name] row <> Some (VNumber x)))
    ["value"; "percentile"; "totalCount"; "ofOnePercentile"].
Proof.
  intros H.
  repeat apply Forall_cons_2; try apply Forall_nil_2;
    match goal with
    | |- (exists s, get [?name] _ = _) /\ _ =>
        destruct (required_string ext _ _ name H eq_refl) as [s Hs]
    end;
    rewrite Hs; (split; [exists s; reflexivity | discriminate]).
Qed.

Lemma HDRHistogramParsedStats_strings_witness :
  conforms ext_objects HDRHistogramParsedStats parsed_row = true /\
  exists s, get ["totalCount"] parsed_row = Some (VString s).
Proof.
  split; [vm_compute; reflexivity|].
  pose proof (HDRHistogramParsedStats_strings ext_objects parsed_row) as Hall.
  rewrite Forall_forall in Hall.
  apply (Hall ltac:(vm_compute; reflexivity) "totalCount").
  do 2 apply list_elem_of_further. apply list_elem_of_here.
Defined.

(** C10.  Whenever a value of type [BenchmarkMetrics] has an
    [extended_hasura_checks] block, the block holds all five of
    [bytes_allocated_per_request], [live_bytes_before], [live_bytes_after],
    [mem_in_use_bytes_before] and [mem_in_use_bytes_after], each a
    number. *)
Theorem extended_hasura_checks_complete (ext : string -> value -> bool)
    (m block : value) :
  conforms ext BenchmarkMetrics m = true ->
  get ["extended_hasura_checks"] m = Some block ->
  block <> VUndefined ->
  Forall (fun name => exists x, get [name] block = Some (VNumber x))
    [ "bytes_allocated_per_request";
      "live_bytes_before"; "live_bytes_after";
      "mem_in_use_bytes_before"; "mem_in_use_bytes_after" ].
Proof.
  intros H Hblock Hdef.
  destruct (conforms_optional _ _ _ "extended_hasura_checks" _ H eq_refl)
    as [Ha|(y & Hy & _ & Hc)].
  { rewrite Hblock in Ha. destruct block; try discriminate. contradiction Hdef; reflexivity. }
  rewrite Hblock in Hy. injection Hy as <-.
  repeat apply Forall_cons_2; try apply Forall_nil_2;
    match goal with
    | |- exists x, get [?name] _ = _ =>
        exact (required_number ext _ _ name Hc eq_refl)
    end.
Qed.

Lemma extended_hasura_checks_complete_witness :
  conforms ext_objects BenchmarkMetrics metrics_full = true /\
  exists x, get ["extended_hasura_checks"; "live_bytes_after"] metrics_full
            = Some (VNumber x).
Proof.
  split; [vm_compute; reflexivity|].
  pose proof (extended_hasura_checks_complete ext_objects metrics_full hasura_checks) as Hall.
  rewrite Forall_forall in Hall.
  destruct (Hall ltac:(vm_compute; reflexivity) ltac:(vm_compute; reflexivity)
              ltac:(discriminate) "live_bytes_after") as (x & Hx).
  { do 2 apply list_elem_of_further. apply list_elem_of_here. }
  exists x. rewrite <- Hx. vm_compute. reflexivity.
Defined.

End DeclarationClaims.

(* ===================================================================== *)
(** * Properties of the precise histogram *)
(* ===================================================================== *)

Section BucketLayout.
Import Hdr.
#[local] Open Scope Z_scope.

Variable cfg : Config.

Lemma pow10_pos : 0 < 10 ^ Z.of_nat (significantDigits cfg).
Proof. apply Z.pow_pos_nonneg; lia. Qed.

Lemma subBucketMagnitude_nonneg : 0 <= subBucketMagnitude cfg.
Proof.
  unfold subBucketMagnitude. pose proof pow10_pos.
  assert (Z.log2_up 2 <= Z.log2_up (2 * 10 ^ Z.of_nat (significantDigits cfg)))
    by (apply Z.log2_up_le_mono; lia).
  change (Z.log2_up 2) with 1 in *. lia.
Qed.

(** A sub-bucket range holds at least [10^significantDigits] buckets. *)
Lemma pow10_le_subBuckets :
  10 ^ Z.of_nat (significantDigits cfg) <= 2 ^ subBucketMagnitude cfg.
Proof.
  pose proof pow10_pos. pose proof subBucketMagnitude_nonneg as Hk.
  unfold subBucketMagnitude in *.
  set (a := 2 * 10 ^ Z.of_nat (significantDigits cfg)) in *.
  destruct (Z.log2_up_spec a ltac:(lia)) as [_ Hup].
  replace (Z.log2_up a) with (Z.succ (Z.log2_up a - 1)) in Hup by lia.
  rewrite Z.pow_succ_r in Hup by lia. lia.
Qed.

Lemma bucketShift_nonneg (v : Z) : 0 <= bucketShift cfg v.
Proof. unfold bucketShift. lia. Qed.

(** The lowest equivalent value clears the low [bucketShift] bits. *)
Lemma lowestEquivalentValue_eq (v : Z) :
  lowestEquivalentValue cfg v
  = 2 ^ bucketShift cfg v * (v / 2 ^ bucketShift cfg v).
Proof.
  unfold lowestEquivalentValue. pose proof (bucketShift_nonneg v).
  rewrite Z.shiftl_mul_pow2, Z.shiftr_div_pow2 by assumption. lia.
Qed.

Lemma lowestEquivalentValue_le (v : Z) : lowestEquivalentValue cfg v <= v.
Proof.
  rewrite lowestEquivalentValue_eq. apply Z.mul_div_le.
  apply Z.pow_pos_nonneg; [lia | apply bucketShift_nonneg].
Qed.

Lemma lowestEquivalentValue_nonneg (v : Z) :
  0 <= v -> 0 <= lowestEquivalentValue cfg v.
Proof.
  intros Hv. rewrite lowestEquivalentValue_eq.
  assert (0 < 2 ^ bucketShift cfg v)
    by (apply Z.pow_pos_nonneg; [lia | apply bucketShift_nonneg]).
  apply Z.mul_nonneg_nonneg; [lia | apply Z.div_pos; lia].
Qed.

(** The width of the bucket of [v] is within the error bound at [v]. *)
Lemma bucket_width_bound (v : Z) :
  0 < bucketShift cfg v ->
  2 ^ bucketShift cfg v <= errorBound cfg v.
Proof.
  intros Hs. unfold errorBound. pose proof pow10_pos as H10.
  pose proof pow10_le_subBuckets as Hk. pose proof subBucketMagnitude_nonneg as Hk0.
  unfold bucketShift in *.
  assert (Hlog : Z.log2 v = (Z.log2 v - subBucketMagnitude cfg) + subBucketMagnitude cfg)
    by lia.
  assert (Hv : 0 < v).
  { destruct (Z.le_gt_cases v 0) as [Hle|]; [|assumption].
    rewrite (Z.log2_nonpos v Hle) in Hs. lia. }
  destruct (Z.log2_spec v Hv) as [Hlow _].
  rewrite Hlog, Z.pow_add_r in Hlow by lia.
  rewrite Z.max_r by lia.
  apply Z.div_le_lower_bound; [lia|].
  set (w := 2 ^ (Z.log2 v - subBucketMagnitude cfg)) in *.
  assert (0 < w) by (apply Z.pow_pos_nonneg; lia).
  nia.
Qed.

(** The bounded relative error of a bucket: its lowest value is within
    the error bound of every value in it. *)
Lemma lowestEquivalentValue_error (v : Z) :
  0 <= v -> v - errorBound cfg v <= lowestEquivalentValue cfg v.
Proof.
  intros Hv. pose proof (bucketShift_nonneg v) as Hs.
  destruct (Z.eq_dec (bucketShift cfg v) 0) as [H0|Hne].
  - rewrite lowestEquivalentValue_eq, H0. simpl. rewrite Z.div_1_r.
    assert (0 <= errorBound cfg v)
      by (unfold errorBound; apply Z.div_pos; [lia | apply pow10_pos]).
    lia.
  - pose proof (bucket_width_bound v ltac:(lia)) as Hw.
    rewrite lowestEquivalentValue_eq.
    assert (Hp : 0 < 2 ^ bucketShift cfg v) by (apply Z.pow_pos_nonneg; lia).
    pose proof (Z.mod_pos_bound v _ Hp) as Hm.
    pose proof (Z.div_mod v (2 ^ bucketShift cfg v) ltac:(lia)). lia.
Qed.

Lemma bucketShift_mono (a b : Z) :
  0 <= a <= b -> bucketShift cfg a <= bucketShift cfg b.
Proof.
  intros H. unfold bucketShift.
  assert (Z.log2 a <= Z.log2 b) by (apply Z.log2_le_mono; lia). lia.
Qed.

(** Buckets are ordered as the values they hold. *)
Lemma lowestEquivalentValue_mono (a b : Z) :
  0 <= a <= b -> lowestEquivalentValue cfg a <= lowestEquivalentValue cfg b.
Proof.
  intros Hab. pose proof (bucketShift_mono a b Hab) as Hs.
  pose proof (bucketShift_nonneg a) as Ha0.
  destruct (Z.eq_dec (bucketShift cfg a) (bucketShift cfg b)) as [Heq|Hne].
  - rewrite !lowestEquivalentValue_eq, Heq.
    assert (0 < 2 ^ bucketShift cfg b) by (apply Z.pow_pos_nonneg; lia).
    apply Z.mul_le_mono_nonneg_l; [lia|]. apply Z.div_le_mono; lia.
  - (* [b] lies in a higher power-of-two range than [a] *)
    assert (Hlt : Z.log2 a < Z.log2 b) by (unfold bucketShift in *; lia).
    assert (Hb : 0 < b).
    { destruct (Z.le_gt_cases b 0) as [Hle|]; [|assumption].
      rewrite (Z.log2_nonpos b Hle) in Hlt. pose proof (Z.log2_nonneg a). lia. }
    pose proof subBucketMagnitude_nonneg as Hk0.
    assert (Hsb : bucketShift cfg b <= Z.log2 b) by (unfold bucketShift in *; lia).
    destruct (Z.log2_spec b Hb) as [Hlow _].
    assert (Ha : a < 2 ^ Z.log2 b).
    { destruct (Z.eq_dec a 0) as [->|Hne0]; [apply Z.pow_pos_nonneg; lia|].
      destruct (Z.log2_spec a ltac:(lia)) as [_ Hup].
      eapply Z.lt_le_trans; [exact Hup|].
      apply Z.pow_le_mono_r; lia. }
    set (s := bucketShift cfg b) in *.
    assert (Hp : 0 < 2 ^ s) by (apply Z.pow_pos_nonneg; lia).
    assert (Hsplit : 2 ^ Z.log2 b = 2 ^ s * 2 ^ (Z.log2 b - s)).
    { rewrite <- Z.pow_add_r by lia. f_equal. lia. }
    assert (Hq : 2 ^ (Z.log2 b - s) <= b / 2 ^ s)
      by (apply Z.div_le_lower_bound; lia).
    pose proof (lowestEquivalentValue_le a).
    rewrite (lowestEquivalentValue_eq b). fold s.
    assert (2 ^ s * 2 ^ (Z.log2 b - s) <= 2 ^ s * (b / 2 ^ s))
      by (apply Z.mul_le_mono_nonneg_l; lia).
    lia.
Qed.

End BucketLayout.

Section Recording.
Import Hdr.
#[local] Open Scope Z_scope.

Implicit Types h g : PreciseHdrHistogram.

Lemma histogram_eq h g :
  config h = config g -> counts h = counts g -> h = g.
Proof. destruct h, g; simpl; intros -> ->; reflexivity. Qed.

Lemma recordOrDrop_negative h (v : Z) : v < 0 -> recordOrDrop h v = h.
Proof. intros Hv. unfold recordOrDrop, record. rewrite decide_True by assumption. reflexivity. Qed.

Lemma recordOrDrop_valid h (v : Z) :
  0 <= v ->
  recordOrDrop h v
  = {| config := config h;
       counts := partial_alter increment
                   (lowestEquivalentValue (config h) v) (counts h) |}.
Proof. intros Hv. unfold recordOrDrop, record. rewrite decide_False by lia. reflexivity. Qed.

Lemma config_recordOrDrop h (v : Z) : config (recordOrDrop h v) = config h.
Proof.
  destruct (Z.lt_ge_cases v 0);
    [rewrite recordOrDrop_negative | rewrite recordOrDrop_valid]; auto.
Qed.

Lemma config_recordAll h (samples : list Z) : config (recordAll h samples) = config h.
Proof.
  revert h. induction samples as [|v rest IH]; intros h; [reflexivity|].
  simpl. unfold recordAll in IH. rewrite IH. apply config_recordOrDrop.
Qed.

Lemma recordAll_app h (xs ys : list Z) :
  recordAll h (xs ++ ys) = recordAll (recordAll h xs) ys.
Proof. apply foldl_app. Qed.

(** ** Merging *)

Lemma merge_empty h (cfg : Config) : merge h (empty cfg) = h.
Proof.
  apply histogram_eq; [reflexivity|]. simpl.
  apply (right_id (∅ : gmap Z N) (union_with _)).
Qed.

Lemma merge_comm h g : config h = config g -> merge h g = merge g h.
Proof.
  intros Hc. apply histogram_eq; [exact Hc|]. simpl.
  apply fin_maps.union_with_comm. intros. f_equal. lia.
Qed.

Lemma merge_assoc h g k : merge (merge h g) k = merge h (merge g k).
Proof.
  apply histogram_eq; [reflexivity|]. simpl.
  apply map_eq. intros i. rewrite !lookup_union_with.
  destruct (counts h !! i), (counts g !! i), (counts k !! i); simpl;
    try reflexivity; f_equal; lia.
Qed.

(** Recording into the argument of a merge is recording into the merge. *)
Lemma merge_recordOrDrop h g (v : Z) :
  config g = config h ->
  merge h (recordOrDrop g v) = recordOrDrop (merge h g) v.
Proof.
  intros Hc. destruct (Z.lt_ge_cases v 0) as [Hneg|Hpos].
  { rewrite !recordOrDrop_negative by assumption. reflexivity. }
  rewrite !recordOrDrop_valid by assumption.
  apply histogram_eq; [reflexivity|]. simpl. rewrite Hc.
  apply map_eq. intros i.
  rewrite lookup_union_with, !lookup_partial_alter, !lookup_union_with.
  case_decide; [subst i|reflexivity]. unfold increment.
  destruct (counts h !! _), (counts g !! _); simpl; f_equal; lia.
Qed.

Lemma merge_recordAll h g (samples : list Z) :
  config g = config h ->
  merge h (recordAll g samples) = recordAll (merge h g) samples.
Proof.
  revert g. induction samples as [|v rest IH]; intros g Hc; [reflexivity|].
  simpl. unfold recordAll in IH. rewrite IH by (rewrite config_recordOrDrop; exact Hc).
  rewrite merge_recordOrDrop by exact Hc. reflexivity.
Qed.

(** Merging what two streams built is building from their concatenation. *)
Lemma merge_build (cfg : Config) (xs ys : list Z) :
  merge (build cfg xs) (build cfg ys) = build cfg (xs ++ ys).
Proof.
  unfold build. rewrite recordAll_app, merge_recordAll, merge_empty; [reflexivity|].
  rewrite config_recordAll. reflexivity.
Qed.

(** ** The buckets of a built histogram *)

(** A bucket of [recordAll h samples] was a bucket of [h] or holds one of
    the valid samples. *)
Lemma recordAll_bucket h (samples : list Z) (k : Z) :
  is_Some (counts (recordAll h samples) !! k) <->
  is_Some (counts h !! k) \/
  exists x, x ∈ samples /\ 0 <= x /\ lowestEquivalentValue (config h) x = k.
Proof.
  revert h. induction samples as [|v rest IH]; intros h.
  - simpl. split; [auto|]. intros [H|(x & Hx & _)]; [exact H|]. inversion Hx.
  - simpl. unfold recordAll in IH. rewrite IH, config_recordOrDrop.
    destruct (Z.lt_ge_cases v 0) as [Hneg|Hpos].
    + rewrite recordOrDrop_negative by assumption. split.
      * intros [H|(x & Hx & Hx0 & Hk)]; [left; exact H|].
        right. exists x. split; [apply list_elem_of_further, Hx | auto].
      * intros [H|(x & Hx & Hx0 & Hk)]; [left; exact H|].
        apply elem_of_cons in Hx as [->|Hx]; [lia|].
        right. exists x. auto.
    + rewrite recordOrDrop_valid by assumption. simpl.
      rewrite lookup_partial_alter. split.
      * intros [H|(x & Hx & Hx0 & Hk)].
        -- case_decide as Hd; [|left; exact H].
           right. exists v. split; [apply list_elem_of_here | auto].
        -- right. exists x. split; [apply list_elem_of_further, Hx | auto].
      * intros [H|(x & Hx & Hx0 & Hk)].
        -- left. case_decide; [unfold increment; eauto | exact H].
        -- apply elem_of_cons in Hx as [->|Hx].
           ++ left. rewrite decide_True by exact Hk. unfold increment. eauto.
           ++ right. exists x. auto.
Qed.

(** No bucket of a built histogram is empty. *)
Lemma populated_recordAll h (samples : list Z) :
  populated h -> populated (recordAll h samples).
Proof.
  revert h. induction samples as [|v rest IH]; intros h Hp; [exact Hp|].
  simpl. apply IH. destruct (Z.lt_ge_cases v 0) as [Hneg|Hpos].
  - rewrite recordOrDrop_negative by assumption. exact Hp.
  - rewrite recordOrDrop_valid by assumption. intros k c. simpl.
    rewrite lookup_partial_alter. case_decide; [|apply Hp].
    unfold increment. intros [= <-]. lia.
Qed.

Lemma populated_build (cfg : Config) (samples : list Z) :
  populated (build cfg samples).
Proof.
  apply populated_recordAll. intros k c. simpl. rewrite lookup_empty. discriminate.
Qed.

End Recording.

Section BucketOrder.
Import Hdr.
#[local] Open Scope Z_scope.

#[local] Instance bucket_le_trans : Transitive bucket_le.
Proof. intros a b c. unfold bucket_le. lia. Qed.

#[local] Instance bucket_le_total : Total bucket_le.
Proof. intros a b. unfold bucket_le. lia. Qed.

Lemma sortedBuckets_sorted (h : PreciseHdrHistogram) :
  StronglySorted bucket_le (sortedBuckets h).
Proof. apply StronglySorted_merge_sort; apply _. Qed.

Lemma sortedBuckets_elem (h : PreciseHdrHistogram) (k : Z) (c : N) :
  (k, c) ∈ sortedBuckets h <-> counts h !! k = Some c.
Proof.
  unfold sortedBuckets. rewrite merge_sort_Permutation. apply elem_of_map_to_list.
Qed.

Lemma sumCounts_perm (l1 l2 : list (Z * N)) :
  l1 ≡ₚ l2 -> sumCounts l1 = sumCounts l2.
Proof.
  induction 1 as [|x l1 l2 _ IH|x y l|l1 l2 l3 _ IH1 _ IH2]; simpl.
  - reflexivity.
  - rewrite IH. reflexivity.
  - lia.
  - congruence.
Qed.

Lemma totalCount_sorted (h : PreciseHdrHistogram) :
  totalCount h = sumCounts (sortedBuckets h).
Proof.
  unfold totalCount, sortedBuckets. symmetry.
  apply sumCounts_perm, merge_sort_Permutation.
Qed.

(** ** The scan over the ordered buckets *)

Lemma valueAtCount_elem (target acc : N) (bs : list (Z * N)) (v : Z) :
  valueAtCount target acc bs = Some v -> v ∈ bs.*1.
Proof.
  revert acc. induction bs as [|[k c] rest IH]; intros acc; simpl; [discriminate|].
  destruct (target <=? acc + c)%N.
  - intros [= ->]. apply list_elem_of_here.
  - intros H. apply list_elem_of_further. eapply IH, H.
Qed.

(** A larger target count is reached no earlier. *)
Lemma valueAtCount_mono (t1 t2 acc : N) (bs : list (Z * N)) (v1 v2 : Z) :
  StronglySorted bucket_le bs ->
  (t1 <= t2)%N ->
  valueAtCount t1 acc bs = Some v1 ->
  valueAtCount t2 acc bs = Some v2 ->
  v1 <= v2.
Proof.
  intros Hs Ht. revert acc.
  induction bs as [|[k c] rest IH]; intros acc; simpl; [discriminate|].
  apply StronglySorted_cons in Hs as [Hk Hs].
  destruct (N.leb_spec t1 (acc + c)) as [H1|H1].
  - intros [= <-]. destruct (N.leb_spec t2 (acc + c)) as [H2|H2].
    + intros [= <-]. lia.
    + intros H. apply valueAtCount_elem, list_elem_of_fmap in H as ([k' c'] & -> & Hin).
      rewrite Forall_forall in Hk. apply (Hk _ Hin).
  - destruct (N.leb_spec t2 (acc + c)) as [H2|H2]; [lia|]. apply IH, Hs.
Qed.

Lemma valueAtCount_unreached (t1 t2 acc : N) (bs : list (Z * N)) :
  (t1 <= t2)%N ->
  valueAtCount t1 acc bs = None ->
  valueAtCount t2 acc bs = None.
Proof.
  intros Ht. revert acc.
  induction bs as [|[k c] rest IH]; intros acc; simpl; [reflexivity|].
  destruct (N.leb_spec t1 (acc + c)) as [H1|H1]; [discriminate|].
  destruct (N.leb_spec t2 (acc + c)) as [H2|H2]; [lia|]. apply IH.
Qed.

(** The last of the ordered buckets is the highest. *)
Lemma last_bucket_highest (bs : list (Z * N)) (b : Z * N) :
  StronglySorted bucket_le bs -> b ∈ bs -> b.1 <= List.last bs.*1 0.
Proof.
  revert b. induction bs as [|a rest IH]; intros b Hs Hin; [inversion Hin|].
  apply StronglySorted_cons in Hs as [Ha Hs].
  destruct rest as [|a' rest'].
  - apply list_elem_of_singleton in Hin as ->. simpl. lia.
  - change (List.last (a :: a' :: rest').*1 0) with (List.last (a' :: rest').*1 0).
    apply elem_of_cons in Hin as [->|Hin]; [|apply IH; assumption].
    rewrite Forall_forall in Ha.
    etransitivity; [apply (Ha a'), list_elem_of_here|].
    apply IH; [assumption | apply list_elem_of_here].
Qed.

Lemma last_bucket_elem (bs : list (Z * N)) :
  bs <> [] -> List.last bs.*1 0 ∈ bs.*1.
Proof.
  induction bs as [|a rest IH]; intros Hne; [congruence|].
  destruct rest as [|a' rest'].
  - simpl. apply list_elem_of_here.
  - change (List.last (a :: a' :: rest').*1 0) with (List.last (a' :: rest').*1 0).
    apply list_elem_of_further, IH. discriminate.
Qed.

Lemma sumCounts_pos (bs : list (Z * N)) :
  Forall (fun b => (0 < b.2)%N) bs -> bs <> [] -> (0 < sumCounts bs)%N.
Proof.
  destruct bs as [|b rest]; intros Hpos Hne; [congruence|].
  apply Forall_cons in Hpos as [Hb _]. simpl. lia.
Qed.

(** The count of all samples is reached at the last bucket, when no
    bucket is empty. *)
Lemma valueAtCount_total (acc : N) (bs : list (Z * N)) :
  Forall (fun b => (0 < b.2)%N) bs ->
  bs <> [] ->
  valueAtCount (acc + sumCounts bs) acc bs = Some (List.last bs.*1 0).
Proof.
  revert acc. induction bs as [|[k c] rest IH]; intros acc Hpos Hne; [congruence|].
  apply Forall_cons in Hpos as [Hc Hpos]. simpl in Hc.
  change (sumCounts ((k, c) :: rest)) with (c + sumCounts rest)%N.
  cbn [valueAtCount].
  destruct rest as [|b' rest'].
  - simpl. rewrite N.add_0_r, N.leb_refl. reflexivity.
  - pose proof (sumCounts_pos (b' :: rest') Hpos ltac:(discriminate)) as Hsum.
    destruct (N.leb_spec (acc + (c + sumCounts (b' :: rest'))) (acc + c)) as [H|H]; [lia|].
    replace (acc + (c + sumCounts (b' :: rest')))%N
      with (acc + c + sumCounts (b' :: rest'))%N by lia.
    rewrite IH by (assumption || discriminate). reflexivity.
Qed.

End BucketOrder.

Section Percentiles.
Import Hdr.
#[local] Open Scope Z_scope.

Implicit Types h : PreciseHdrHistogram.

Lemma countAtPercentile_mono h (p1 p2 : Q) :
  (p1 <= p2)%Q -> (countAtPercentile h p1 <= countAtPercentile h p2)%N.
Proof.
  intros Hp. unfold countAtPercentile.
  set (total := inject_Z (Z.of_N (totalCount h))).
  assert (Htotal : (0 <= total)%Q).
  { unfold total. change 0%Q with (inject_Z 0). rewrite <- Zle_Qle. lia. }
  assert (Hle : (p1 * total / 100 <= p2 * total / 100)%Q).
  { unfold Qdiv. apply Qmult_le_compat_r; [|discriminate].
    apply Qmult_le_compat_r; assumption. }
  apply Qceiling_resp_le in Hle. lia.
Qed.

Lemma countAtPercentile_100 h :
  (0 < totalCount h)%N -> countAtPercentile h 100 = totalCount h.
Proof.
  intros Hpos. unfold countAtPercentile.
  rewrite (Qceiling_comp _ (inject_Z (Z.of_N (totalCount h)))).
  - rewrite Qceiling_Z. lia.
  - rewrite Qmult_comm. apply Qdiv_mult_l. discriminate.
Qed.

(** [percentile] does not decrease when [p] grows. *)
Lemma percentile_mono h (p1 p2 : Q) :
  (p1 <= p2)%Q -> percentile h p1 <= percentile h p2.
Proof.
  intros Hp. apply (countAtPercentile_mono h) in Hp.
  unfold percentile. cbv zeta.
  pose proof (sortedBuckets_sorted h) as Hs.
  destruct (valueAtCount (countAtPercentile h p1) 0 _) as [v1|] eqn:H1;
    destruct (valueAtCount (countAtPercentile h p2) 0 _) as [v2|] eqn:H2.
  - eapply valueAtCount_mono; eassumption.
  - apply valueAtCount_elem, list_elem_of_fmap in H1 as (b & -> & Hb).
    apply last_bucket_highest; assumption.
  - rewrite (valueAtCount_unreached _ _ _ _ Hp H1) in H2. discriminate.
  - lia.
Qed.

Lemma sortedBuckets_nonempty h : counts h <> ∅ -> sortedBuckets h <> [].
Proof.
  intros Hne Hnil. apply Hne, map_to_list_empty_iff, Permutation_nil_r.
  rewrite <- Hnil. unfold sortedBuckets. symmetry. apply merge_sort_Permutation.
Qed.

Lemma sortedBuckets_populated h :
  populated h -> Forall (fun b => (0 < b.2)%N) (sortedBuckets h).
Proof.
  intros Hp. apply Forall_forall. intros [k c] Hin.
  apply sortedBuckets_elem in Hin. apply (Hp _ _ Hin).
Qed.

(** At [p = 100] the answer is the highest bucket. *)
Lemma percentile_100 h :
  populated h -> counts h <> ∅ ->
  percentile h 100 = List.last (sortedBuckets h).*1 0.
Proof.
  intros Hp Hne. unfold percentile. cbv zeta.
  pose proof (sortedBuckets_nonempty h Hne) as Hbs.
  pose proof (sortedBuckets_populated h Hp) as Hpos.
  rewrite countAtPercentile_100
    by (rewrite totalCount_sorted; apply sumCounts_pos; assumption).
  rewrite totalCount_sorted.
  rewrite <- (N.add_0_l (sumCounts (sortedBuckets h))).
  rewrite valueAtCount_total by assumption. reflexivity.
Qed.

(** ** The largest sample *)

Lemma maximum_ge (samples : list Z) (x : Z) : x ∈ samples -> x <= maximum samples.
Proof.
  unfold maximum. induction samples as [|y rest IH]; intros Hin; [inversion Hin|].
  simpl. apply elem_of_cons in Hin as [->|Hin]; [lia|].
  specialize (IH Hin). lia.
Qed.

Lemma maximum_elem (samples : list Z) :
  samples <> [] -> Forall (fun x => 0 <= x) samples -> maximum samples ∈ samples.
Proof.
  unfold maximum. induction samples as [|y rest IH]; intros Hne Hall; [congruence|].
  apply Forall_cons in Hall as [Hy Hall]. simpl.
  destruct rest as [|z rest'].
  - simpl. rewrite Z.max_l by lia. apply list_elem_of_here.
  - specialize (IH ltac:(discriminate) Hall).
    destruct (Z.max_spec y (foldr Z.max 0 (z :: rest'))) as [[_ ->]|[_ ->]];
      [apply list_elem_of_further, IH | apply list_elem_of_here].
Qed.

(** The highest bucket of a built histogram is the bucket of the largest
    valid sample. *)
Lemma percentile_100_build (cfg : Config) (samples : list Z) :
  samples <> [] ->
  Forall (fun x => 0 <= x) samples ->
  percentile (build cfg samples) 100 = lowestEquivalentValue cfg (maximum samples).
Proof.
  intros Hne Hvalid.
  pose proof (maximum_elem samples Hne Hvalid) as Hmax.
  assert (Hmax0 : 0 <= maximum samples)
    by (rewrite Forall_forall in Hvalid; apply Hvalid, Hmax).
  assert (Hkey : is_Some (counts (build cfg samples)
                            !! lowestEquivalentValue cfg (maximum samples))).
  { apply recordAll_bucket. right. exists (maximum samples). auto. }
  assert (Hmap : counts (build cfg samples) <> ∅).
  { intros Hempty. rewrite Hempty, lookup_empty in Hkey. destruct Hkey; discriminate. }
  rewrite percentile_100 by (apply populated_build || assumption).
  apply Z.le_antisymm.
  - pose proof (last_bucket_elem _ (sortedBuckets_nonempty _ Hmap)) as Hlast.
    apply list_elem_of_fmap in Hlast as ([k c] & Hk & Hin). simpl in Hk.
    rewrite Hk. apply sortedBuckets_elem in Hin.
    assert (Hsome : is_Some (counts (build cfg samples) !! k)) by eauto.
    apply recordAll_bucket in Hsome as [Hin0|(x & Hx & Hx0 & <-)].
    { simpl in Hin0. rewrite lookup_empty in Hin0. destruct Hin0; discriminate. }
    simpl. apply lowestEquivalentValue_mono. split; [assumption | apply maximum_ge, Hx].
  - destruct Hkey as [c Hc]. apply sortedBuckets_elem in Hc.
    apply (last_bucket_highest _ _ (sortedBuckets_sorted _) Hc).
Qed.

(** The end-to-end example of the design document: of the samples 1..100,
    [percentile 50] is 50. *)
Lemma percentile_50_example :
  percentile (build {| maxTrackableValue := 3600000; significantDigits := 3 |}
                    (Z.of_nat <$> seq 1 100)) 50 = 50.
Proof. vm_compute. reflexivity. Qed.

End Percentiles.

Section PreciseHistogramClaims.
  Import Hdr Samples.
  #[local] Open Scope Z_scope.

(** C1.  For histograms built with the same configuration, [merge] is
    commutative and associative, the merge of two of them is the histogram
    built from the concatenation of their sample streams, and so every
    percentile of the merge is the percentile of that histogram, in either
    merge order and in either grouping. *)
Theorem merge_commutative_associative_union
    (cfg : Config) (xs ys zs : list Z) (p : Q) :
  let a := build cfg xs in
  let b := build cfg ys in
  let c := build cfg zs in
  merge a b = merge b a /\
  merge (merge a b) c = merge a (merge b c) /\
  merge a b = build cfg (xs ++ ys) /\
  percentile (merge a b) p = percentile (build cfg (xs ++ ys)) p /\
  percentile (merge b a) p = percentile (build cfg (xs ++ ys)) p /\
  percentile (merge (merge a b) c) p = percentile (build cfg (xs ++ ys ++ zs)) p /\
  percentile (merge a (merge b c)) p = percentile (build cfg (xs ++ ys ++ zs)) p.
Proof.
  intros a b c. subst a b c.
  assert (Hcomm : merge (build cfg xs) (build cfg ys) = merge (build cfg ys) (build cfg xs)).
  { apply merge_comm. unfold build. rewrite !config_recordAll. reflexivity. }
  split; [exact Hcomm|].
  split; [apply merge_assoc|].
  split; [apply merge_build|].
  split; [rewrite merge_build; reflexivity|].
  split; [rewrite <- Hcomm, merge_build; reflexivity|].
  split.
  - rewrite !merge_build, <- app_assoc. reflexivity.
  - rewrite !merge_build. reflexivity.
Qed.

(** C2.  For a non-empty stream of valid (non-negative) samples,
    [percentile 100] of the histogram built from it is at most the largest
    sample and at least the largest sample minus the error bound. *)
Theorem percentile_100_within_error_of_maximum (cfg : Config) (samples : list Z) :
  samples <> [] ->
  Forall (fun x => 0 <= x) samples ->
  maximum samples - errorBound cfg (maximum samples)
    <= percentile (build cfg samples) 100
    <= maximum samples.
Proof.
  intros Hne Hvalid. rewrite percentile_100_build by assumption.
  split; [|apply lowestEquivalentValue_le].
  apply lowestEquivalentValue_error.
  pose proof (maximum_elem samples Hne Hvalid) as Hmax.
  rewrite Forall_forall in Hvalid. apply Hvalid, Hmax.
Qed.

Lemma percentile_100_within_error_of_maximum_witness :
  maximum latencies = 12345 /\
  errorBound hdr_config 12345 = 12 /\
  12345 - 12 <= percentile (build hdr_config latencies) 100 <= 12345.
Proof.
  split; [reflexivity|]. split; [reflexivity|].
  apply (percentile_100_within_error_of_maximum hdr_config latencies).
  - discriminate.
  - repeat constructor; discriminate.
Defined.

(** C3.  For every state of the histogram and all [p1 < p2] in (0, 100],
    [percentile p1 <= percentile p2]. *)
Theorem percentile_monotone (h : PreciseHdrHistogram) (p1 p2 : Q) :
  (0 < p1)%Q -> (p1 < p2)%Q -> (p2 <= 100)%Q ->
  percentile h p1 <= percentile h p2.
Proof.
  intros _ Hlt _. apply percentile_mono, Qlt_le_weak, Hlt.
Qed.

Lemma percentile_monotone_witness :
  percentile (build hdr_config latencies) 50
    <= percentile (build hdr_config latencies) (999 # 10).
Proof.
  apply (percentile_monotone (build hdr_config latencies) 50 (999 # 10));
    reflexivity || discriminate.
Defined.

End PreciseHistogramClaims.

(* ===================================================================== *)
(** * Properties of the basic histogram *)
(* ===================================================================== *)

Section BasicHistogramFacts.
Import Basic.
#[local] Open Scope Z_scope.

Implicit Types b : Builder.












(** What the builder returns is a [BasicHistogram] of [types.ts]. *)
Lemma HistBucket_value_conforms (ext : string -> TS.value -> bool) (bk : HistBucket) :
  TS.conforms ext Types.HistBucket_ty (HistBucket_value bk) = true.
Proof. vm_compute. reflexivity. Qed.

Lemma BasicHistogram_value_conforms (ext : string -> TS.value -> bool)
    (h : BasicHistogram) :
  TS.conforms ext Types.BasicHistogram_ty (BasicHistogram_value h) = true.
Proof.
  apply conforms_object. eexists. split; [reflexivity|].
  unfold TS.req. cbn [forallb]. unfold TS.conforms_field. cbn [fst snd].
  rewrite !list_to_map_cons, lookup_insert_eq.
  rewrite lookup_insert_ne by discriminate. rewrite lookup_insert_eq.
  cbn [number TS.conforms andb]. rewrite andb_true_r.
  induction (buckets h) as [|bk rest IH]; [reflexivity|].
  change (TS.conforms ext Types.HistBucket_ty (HistBucket_value bk)
          && forallb (TS.conforms ext Types.HistBucket_ty) (HistBucket_value <$> rest)
          = true).
  rewrite HistBucket_value_conforms. exact IH.
Qed.

(** The outlier policy on the example of the design document: with buckets
    up to 1000 ms, one sample of 5000 ms among 99 samples under 1000 ms is
    the one outlier. *)
Lemma outlier_policy_example :
  let samples := ((Z.of_nat <$> seq 1 99) ++ [5000])%list in
  let h := histogramOfLatencies
             {| minBound := 0; bucketWidth := 100; bucketCount := 10 |} samples in
  outliersRemoved h = 1%N /\ bucketedCount (buckets h) = 99%N.
Proof. vm_compute. split; reflexivity. Qed.

(** A rejected latency is in no bucket and is no outlier: of the latencies
    -1 and 5, one is counted. *)
Lemma rejected_latency_example :
  let h := histogramOfLatencies Samples.bucket_config [-1; 5] in
  bucketedCount (buckets h) = 1%N /\ outliersRemoved h = 0%N.
Proof. vm_compute. split; reflexivity. Qed.


End BasicHistogramFacts.

Section BasicHistogramClaims.
  Import Basic Samples.
  #[local] Open Scope Z_scope.


(** The builder on a stream of eight events: the two latencies beyond the
    last bucket are the outliers. *)
Lemma BasicHistogram_example :
  histogram bucket_config events
  = {| buckets := [ {| gte := 0; count := 2; count1stHalf := 2 |};
                    {| gte := 250; count := 3; count1stHalf := 0 |};
                    {| gte := 500; count := 0; count1stHalf := 0 |};
                    {| gte := 750; count := 1; count1stHalf := 0 |} ];
       outliersRemoved := 2 |}.
Proof. vm_compute. reflexivity. Qed.

End BasicHistogramClaims.

(* ===================================================================== *)
(** * Further properties of the type declarations *)
(* ===================================================================== *)

Section VariantFacts.
Import TS Types.

Variable ext : string -> value -> bool.

(** A [Benchmark] is a value of one of the variants. *)
Lemma Benchmark_cases (b : value) :
  conforms ext Benchmark b = true ->
  exists tag t, (tag, t) ∈ Benchmark_variants /\ conforms ext t b = true.
Proof.
  unfold Benchmark. intros H.
  repeat (apply conforms_union in H as [H|H]);
    eexists _, _; (split; [|exact H]); unfold Benchmark_variants;
    repeat first [apply list_elem_of_here | apply list_elem_of_further].
Qed.

(** A value of a variant is a [Benchmark]. *)
Lemma variant_Benchmark (tag : string) (t : ty) (b : value) :
  (tag, t) ∈ Benchmark_variants ->
  conforms ext t b = true ->
  conforms ext Benchmark b = true.
Proof.
  unfold Benchmark_variants. intros Hin H.
  repeat (apply elem_of_cons in Hin as [[= -> ->]|Hin]); [..|inversion Hin];
    unfold Benchmark; cbn [conforms]; fold (conforms ext);
    rewrite ?orb_true_iff; auto 10.
Qed.

(** A value of a variant carries the variant's tag. *)
Lemma variant_tag_in (tag : string) (t : ty) (b : value) :
  (tag, t) ∈ Benchmark_variants ->
  conforms ext t b = true ->
  get ["execution_strategy"] b = Some (VString tag).
Proof.
  unfold Benchmark_variants. intros Hin H.
  repeat (apply elem_of_cons in Hin as [[= -> ->]|Hin]); [..|inversion Hin];
    exact (variant_tag ext _ _ _ H).
Qed.

(** No two variants share a tag. *)
Lemma variants_functional (tag : string) (t t' : ty) :
  (tag, t) ∈ Benchmark_variants -> (tag, t') ∈ Benchmark_variants -> t = t'.
Proof.
  unfold Benchmark_variants. intros Hin Hin'.
  apply list_elem_of_In in Hin, Hin'. simpl in Hin, Hin'.
  intuition congruence.
Qed.

(** The tag selects the variant. *)
Lemma Benchmark_variant (tag : string) (t : ty) (b : value) :
  conforms ext Benchmark b = true ->
  get ["execution_strategy"] b = Some (VString tag) ->
  (tag, t) ∈ Benchmark_variants ->
  conforms ext t b = true.
Proof.
  intros H Htag Hin.
  destruct (Benchmark_cases b H) as (tag0 & t0 & Hin0 & H0).
  pose proof (variant_tag_in _ _ _ Hin0 H0) as Htag0.
  rewrite Htag in Htag0. injection Htag0 as <-.
  rewrite (variants_functional _ _ _ Hin Hin0). exact H0.
Qed.

(** The fields a variant adds to [_BenchmarkRunConfig]. *)
Lemma variant_own (base own : ty) (tag : string) (b : value) :
  conforms ext Benchmark b = true ->
  get ["execution_strategy"] b = Some (VString tag) ->
  (tag, TInter base own) ∈ Benchmark_variants ->
  conforms ext own b = true.
Proof.
  intros H Htag Hin.
  apply (Benchmark_variant _ _ _ H Htag) in Hin.
  apply conforms_inter in Hin as [_ Hown]. exact Hown.
Qed.

(** An optional field declared [number], [boolean] or an object type. *)
Lemma optional_number (t : ty) (v : value) (name : string) :
  conforms ext t v = true ->
  field_decl name t = Some (true, TNumber) ->
  optionally is_number (get [name] v).
Proof.
  intros H Hd. destruct (conforms_optional _ _ _ _ _ H Hd) as [Ha|(x & Hx & _ & Hc)];
    [left; exact Ha | right].
  exists x. split; [exact Hx | apply (conforms_number ext), Hc].
Qed.

Lemma optional_boolean (t : ty) (v : value) (name : string) :
  conforms ext t v = true ->
  field_decl name t = Some (true, TBoolean) ->
  optionally is_boolean (get [name] v).
Proof.
  intros H Hd. destruct (conforms_optional _ _ _ _ _ H Hd) as [Ha|(x & Hx & _ & Hc)];
    [left; exact Ha | right].
  exists x. split; [exact Hx|]. destruct x; try discriminate. eexists; reflexivity.
Qed.

Lemma conforms_record (elem : ty) (v : value) :
  conforms ext (TRecord elem) v = true -> non_primitive v.
Proof. destruct v; try discriminate; intros _; exact I. Qed.

(** [Record<string, any>] is exactly the values that are not primitives:
    an array or a [Date] is one, a string is not. *)
Lemma conforms_record_any (v : value) :
  conforms ext (TRecord TAny) v = true <-> non_primitive v.
Proof.
  split; [apply conforms_record|].
  destruct v; simpl; try contradiction; intros _; try reflexivity.
  - induction items as [|x rest IH]; [reflexivity | exact IH].
  - induction ((map_to_list props).*2) as [|x rest IH]; [reflexivity | exact IH].
Qed.

End VariantFacts.

Section DeclarationCoverage.
  Import TS Types Samples.

(** X1.  [Benchmark] is a discriminated union: every [Benchmark] is a
    value of exactly one of the five variants, the one whose literal is
    the value of its [execution_strategy]. *)
Theorem Benchmark_discriminated (ext : string -> value -> bool) (b : value) :
  conforms ext Benchmark b = true ->
  exists tag t,
    (tag, t) ∈ Benchmark_variants /\
    get ["execution_strategy"] b = Some (VString tag) /\
    conforms ext t b = true /\
    forall tag' t', (tag', t') ∈ Benchmark_variants ->
                    conforms ext t' b = true -> tag' = tag /\ t' = t.
Proof.
  intros H. destruct (Benchmark_cases ext b H) as (tag & t & Hin & Ht).
  pose proof (variant_tag_in ext _ _ _ Hin Ht) as Htag.
  exists tag, t. split; [exact Hin|]. split; [exact Htag|]. split; [exact Ht|].
  intros tag' t' Hin' Ht'.
  pose proof (variant_tag_in ext _ _ _ Hin' Ht') as Htag'.
  rewrite Htag in Htag'. injection Htag' as <-.
  split; [reflexivity|]. eapply variants_functional; eassumption.
Qed.

Lemma Benchmark_discriminated_witness :
  conforms ext_objects Benchmark benchmark_fixed = true /\
  exists tag t,
    (tag, t) ∈ Benchmark_variants /\
    get ["execution_strategy"] benchmark_fixed = Some (VString tag) /\
    conforms ext_objects t benchmark_fixed = true.
Proof.
  split; [vm_compute; reflexivity|].
  destruct (Benchmark_discriminated ext_objects benchmark_fixed)
    as (tag & t & Hin & Htag & Ht & _); [vm_compute; reflexivity|].
  exists tag, t. repeat split; assumption.
Defined.

(** X2.  A [Benchmark] tagged ['REQUESTS_PER_SECOND'] has a number [rps]
    and a string [duration]. *)
Theorem RequestsPerSecondBenchmark_fields (ext : string -> value -> bool) (b : value) :
  conforms ext Benchmark b = true ->
  get ["execution_strategy"] b = Some (VString "REQUESTS_PER_SECOND") ->
  (exists x, get ["rps"] b = Some (VNumber x)) /\
  (exists s, get ["duration"] b = Some (VString s)).
Proof.
  intros H Htag.
  eapply variant_own in H;
    [|exact Htag | unfold Benchmark_variants, RequestsPerSecondBenchmark;
                   apply list_elem_of_here].
  split; [exact (required_number ext _ _ "rps" H eq_refl)
         | exact (required_string ext _ _ "duration" H eq_refl)].
Qed.

Lemma RequestsPerSecondBenchmark_fields_witness :
  (exists x, get ["rps"] benchmark_rps = Some (VNumber x)) /\
  (exists s, get ["duration"] benchmark_rps = Some (VString s)).
Proof.
  apply (RequestsPerSecondBenchmark_fields ext_objects benchmark_rps);
    vm_compute; reflexivity.
Defined.

(** X3.  A [Benchmark] tagged ['FIXED_REQUEST_NUMBER'] has a number
    [requests]. *)
Theorem FixedRequestNumberBenchmark_fields (ext : string -> value -> bool) (b : value) :
  conforms ext Benchmark b = true ->
  get ["execution_strategy"] b = Some (VString "FIXED_REQUEST_NUMBER") ->
  exists x, get ["requests"] b = Some (VNumber x).
Proof.
  intros H Htag.
  eapply variant_own in H;
    [|exact Htag | unfold Benchmark_variants, FixedRequestNumberBenchmark;
                   apply list_elem_of_further, list_elem_of_here].
  exact (required_number ext _ _ "requests" H eq_refl).
Qed.

Lemma FixedRequestNumberBenchmark_fields_witness :
  exists x, get ["requests"] benchmark_fixed = Some (VNumber x).
Proof.
  apply (FixedRequestNumberBenchmark_fields ext_objects benchmark_fixed);
    vm_compute; reflexivity.
Defined.

(** X4.  A [Benchmark] tagged ['MAX_REQUESTS_IN_DURATION'] has a string
    [duration]. *)
Theorem MaxRequestsInDurationBenchmark_fields (ext : string -> value -> bool)
    (b : value) :
  conforms ext Benchmark b = true ->
  get ["execution_strategy"] b = Some (VString "MAX_REQUESTS_IN_DURATION") ->
  exists s, get ["duration"] b = Some (VString s).
Proof.
  intros H Htag.
  eapply variant_own in H;
    [|exact Htag | unfold Benchmark_variants, MaxRequestsInDurationBenchmark;
                   do 2 apply list_elem_of_further; apply list_elem_of_here].
  exact (required_string ext _ _ "duration" H eq_refl).
Qed.

Lemma MaxRequestsInDurationBenchmark_fields_witness :
  exists s, get ["duration"] benchmark_max_requests = Some (VString s).
Proof.
  apply (MaxRequestsInDurationBenchmark_fields ext_objects benchmark_max_requests);
    vm_compute; reflexivity.
Defined.

(** X5.  A [Benchmark] tagged ['MULTI_STAGE'] has a number [initial_rps]
    and an array [stages], every element of which is a [K6Stage]. *)
Theorem MultiStageBenchmark_fields (ext : string -> value -> bool) (b : value) :
  conforms ext Benchmark b = true ->
  get ["execution_strategy"] b = Some (VString "MULTI_STAGE") ->
  (exists x, get ["initial_rps"] b = Some (VNumber x)) /\
  (exists stages, get ["stages"] b = Some (VArray stages) /\
                  Forall (fun st => ext "K6Stage" st = true) stages).
Proof.
  intros H Htag.
  eapply variant_own in H;
    [|exact Htag | unfold Benchmark_variants, MultiStageBenchmark;
                   do 3 apply list_elem_of_further; apply list_elem_of_here].
  split; [exact (required_number ext _ _ "initial_rps" H eq_refl)|].
  destruct (conforms_required ext _ _ "stages" _ H eq_refl) as (x & Hx & _ & Hc).
  apply conforms_array in Hc as (stages & -> & Hall).
  exists stages. split; [exact Hx | exact Hall].
Qed.

Lemma MultiStageBenchmark_fields_witness :
  (exists x, get ["initial_rps"] benchmark_multi_stage = Some (VNumber x)) /\
  (exists stages, get ["stages"] benchmark_multi_stage = Some (VArray stages) /\
                  Forall (fun st => ext_objects "K6Stage" st = true) stages).
Proof.
  apply (MultiStageBenchmark_fields ext_objects benchmark_multi_stage);
    vm_compute; reflexivity.
Defined.

(** X6.  Every [Benchmark] has a string [name] and a string [query]; its
    [connections], when present, is a number, and its [variables], when
    present, is not a primitive (it is an object, an array, a [Date] or an
    instance of a class). *)
Theorem Benchmark_common_fields (ext : string -> value -> bool) (b : value) :
  conforms ext Benchmark b = true ->
  (exists s, get ["name"] b = Some (VString s)) /\
  (exists s, get ["query"] b = Some (VString s)) /\
  optionally is_number (get ["connections"] b) /\
  optionally non_primitive (get ["variables"] b).
Proof.
  intros H. apply Benchmark_run_config in H.
  split; [exact (required_string ext _ _ "name" H eq_refl)|].
  split; [exact (required_string ext _ _ "query" H eq_refl)|].
  split; [exact (optional_number ext _ _ "connections" H eq_refl)|].
  destruct (conforms_optional ext _ _ "variables" _ H eq_refl)
    as [Ha|(x & Hx & _ & Hc)]; [left; exact Ha | right].
  exists x. split; [exact Hx | exact (conforms_record ext _ _ Hc)].
Qed.

Lemma Benchmark_common_fields_witness :
  (exists s, get ["name"] benchmark_fixed = Some (VString s)) /\
  (exists s, get ["query"] benchmark_fixed = Some (VString s)) /\
  optionally is_number (get ["connections"] benchmark_fixed) /\
  optionally non_primitive (get ["variables"] benchmark_fixed).
Proof.
  apply (Benchmark_common_fields ext_objects benchmark_fixed).
  vm_compute. reflexivity.
Defined.

End DeclarationCoverage.

Section ReportCoverage.
  Import TS Types Samples.

(** X7.  Every [GlobalConfig] has a string [url] and an array [queries]
    whose elements are all [Benchmark]s; [execution_mode], when present, is
    ['ASYNC'] or ['SYNC']; [debug] and [extended_hasura_checks], when
    present, are booleans, [headers] is not a primitive (it is an object,
    an array, a [Date] or an instance of a class) and [writeStream] is a
    [stream.Writable]. *)
Theorem GlobalConfig_fields (ext : string -> value -> bool) (g : value) :
  conforms ext GlobalConfig g = true ->
  (exists s, get ["url"] g = Some (VString s)) /\
  (exists queries, get ["queries"] g = Some (VArray queries) /\
                   Forall (fun q => conforms ext Benchmark q = true) queries) /\
  optionally (fun v => v = VString "ASYNC" \/ v = VString "SYNC")
             (get ["execution_mode"] g) /\
  optionally is_boolean (get ["debug"] g) /\
  optionally is_boolean (get ["extended_hasura_checks"] g) /\
  optionally non_primitive (get ["headers"] g) /\
  optionally (fun v => ext "stream.Writable" v = true) (get ["writeStream"] g).
Proof.
  intros H.
  split; [exact (required_string ext _ _ "url" H eq_refl)|].
  split.
  { destruct (conforms_required ext _ _ "queries" _ H eq_refl) as (x & Hx & _ & Hc).
    apply conforms_array in Hc as (queries & -> & Hall). eauto. }
  split.
  { destruct (conforms_optional ext _ _ "execution_mode" _ H eq_refl)
      as [Ha|(x & Hx & _ & Hc)]; [left; exact Ha | right].
    exists x. split; [exact Hx|].
    apply conforms_union in Hc as [Hc|Hc]; apply conforms_lit in Hc; auto. }
  split; [exact (optional_boolean ext _ _ "debug" H eq_refl)|].
  split; [exact (optional_boolean ext _ _ "extended_hasura_checks" H eq_refl)|].
  split.
  { destruct (conforms_optional ext _ _ "headers" _ H eq_refl)
      as [Ha|(x & Hx & _ & Hc)]; [left; exact Ha | right].
    exists x. split; [exact Hx | exact (conforms_record ext _ _ Hc)]. }
  destruct (conforms_optional ext _ _ "writeStream" _ H eq_refl)
    as [Ha|(x & Hx & _ & Hc)]; [left; exact Ha | right].
  exists x. split; [exact Hx | exact Hc].
Qed.

Lemma GlobalConfig_fields_witness :
  conforms ext_objects GlobalConfig global_config = true /\
  exists queries, get ["queries"] global_config = Some (VArray queries) /\
                  Forall (fun q => conforms ext_objects Benchmark q = true) queries.
Proof.
  split; [vm_compute; reflexivity|].
  apply (GlobalConfig_fields ext_objects global_config). vm_compute. reflexivity.
Defined.

(** X8.  In every [BenchmarkMetrics], [histogram.json] is a
    [HistogramSummary] that also has the numbers [mean], [min] and
    [stdDeviation]; [geoMean] and the six prefix fields are numbers when
    present; and [histogram.parsedStats] is an array of
    [HDRHistogramParsedStats] rows. *)
Theorem BenchmarkMetrics_histogram (ext : string -> value -> bool) (m : value) :
  conforms ext BenchmarkMetrics m = true ->
  exists json rows,
    get ["histogram"; "json"] m = Some json /\
    ext "HistogramSummary" json = true /\
    Forall (fun name => exists x, get [name] json = Some (VNumber x))
      ["mean"; "min"; "stdDeviation"] /\
    Forall (fun name => optionally is_number (get [name] json))
      [ "geoMean"; "p501stHalf"; "p501stQuarter"; "p501stEighth";
        "geoMean1stHalf"; "geoMean1stQuarter"; "geoMean1stEighth" ] /\
    get ["histogram"; "parsedStats"] m = Some (VArray rows) /\
    Forall (fun row => conforms ext HDRHistogramParsedStats row = true) rows.
Proof.
  intros H.
  destruct (conforms_required_at ext ["histogram"; "json"] _ _ _ H eq_refl)
    as (json & Hjson & Hc & _).
  destruct (conforms_required_at ext ["histogram"; "parsedStats"] _ _ _ H eq_refl)
    as (stats & Hstats & Hcs & _).
  apply conforms_array in Hcs as (rows & -> & Hrows).
  apply conforms_inter in Hc as [Hbase Hown].
  exists json, rows.
  split; [exact Hjson|]. split; [exact Hbase|].
  split.
  { repeat apply Forall_cons_2; try apply Forall_nil_2;
      match goal with
      | |- exists x, get [?name] _ = _ => exact (required_number ext _ _ name Hown eq_refl)
      end. }
  split.
  { repeat apply Forall_cons_2; try apply Forall_nil_2;
      match goal with
      | |- optionally _ (get [?name] _) => exact (optional_number ext _ _ name Hown eq_refl)
      end. }
  split; [exact Hstats | exact Hrows].
Qed.

Lemma BenchmarkMetrics_histogram_witness :
  conforms ext_objects BenchmarkMetrics metrics_plain = true /\
  exists json, get ["histogram"; "json"] metrics_plain = Some json /\
               exists x, get ["mean"] json = Some (VNumber x).
Proof.
  split; [vm_compute; reflexivity|].
  destruct (BenchmarkMetrics_histogram ext_objects metrics_plain)
    as (json & rows & Hjson & _ & Hreq & _); [vm_compute; reflexivity|].
  exists json. split; [exact Hjson|].
  rewrite Forall_forall in Hreq. apply Hreq, list_elem_of_here.
Defined.

(** X9.  In every [BenchmarkMetrics], [time.start] and [time.end] are each
    a string or a [Date]. *)
Theorem BenchmarkMetrics_time (ext : string -> value -> bool) (m : value) :
  conforms ext BenchmarkMetrics m = true ->
  Forall (fun name =>
            (exists s, get ["time"; name] m = Some (VString s)) \/
            (exists d, get ["time"; name] m = Some (VDate d)))
    ["start"; "end"].
Proof.
  intros H.
  repeat apply Forall_cons_2; try apply Forall_nil_2;
    match goal with
    | |- (exists s, get ?path _ = _) \/ _ =>
        destruct (conforms_required_at ext path _ _ _ H eq_refl) as (x & Hx & Hc & _)
    end;
    rewrite Hx; apply conforms_union in Hc as [Hc|Hc];
    destruct x; try discriminate; eauto.
Qed.

Lemma BenchmarkMetrics_time_witness :
  conforms ext_objects BenchmarkMetrics metrics_plain = true /\
  get ["time"; "start"] metrics_plain = Some (VString "2021-03-01T10:00:00Z") /\
  ((exists s, get ["time"; "end"] metrics_plain = Some (VString s)) \/
   (exists d, get ["time"; "end"] metrics_plain = Some (VDate d))).
Proof.
  split; [vm_compute; reflexivity|]. split; [vm_compute; reflexivity|].
  pose proof (BenchmarkMetrics_time ext_objects metrics_plain
                ltac:(vm_compute; reflexivity)) as Hall.
  rewrite Forall_forall in Hall.
  apply (Hall "end"), list_elem_of_further, list_elem_of_here.
Defined.

(** X10.  When a [BenchmarkMetrics] has a [basicHistogram], that has a
    number [outliersRemoved] and an array [buckets], and every bucket has
    the numbers [gte], [count] and [count1stHalf]. *)
Theorem BenchmarkMetrics_basicHistogram (ext : string -> value -> bool)
    (m basic : value) :
  conforms ext BenchmarkMetrics m = true ->
  get ["basicHistogram"] m = Some basic ->
  basic <> VUndefined ->
  (exists x, get ["outliersRemoved"] basic = Some (VNumber x)) /\
  (exists buckets, get ["buckets"] basic = Some (VArray buckets) /\
     Forall (fun bucket =>
               Forall (fun name => exists x, get [name] bucket = Some (VNumber x))
                 ["gte"; "count"; "count1stHalf"]) buckets).
Proof.
  intros H Hbasic Hdef.
  destruct (conforms_optional ext _ _ "basicHistogram" _ H eq_refl)
    as [Ha|(y & Hy & _ & Hc)].
  { rewrite Hbasic in Ha. destruct basic; try discriminate. contradiction Hdef; reflexivity. }
  rewrite Hbasic in Hy. injection Hy as <-.
  split; [exact (required_number ext _ _ "outliersRemoved" Hc eq_refl)|].
  destruct (conforms_required ext _ _ "buckets" _ Hc eq_refl) as (x & Hx & _ & Hcx).
  apply conforms_array in Hcx as (buckets & -> & Hall).
  exists buckets. split; [exact Hx|].
  eapply Forall_impl; [exact Hall|]. intros bucket Hb.
  repeat apply Forall_cons_2; try apply Forall_nil_2;
    match goal with
    | |- exists x, get [?name] _ = _ => exact (required_number ext _ _ name Hb eq_refl)
    end.
Qed.

Lemma BenchmarkMetrics_basicHistogram_witness :
  conforms ext_objects BenchmarkMetrics metrics_full = true /\
  exists x, get ["basicHistogram"; "outliersRemoved"] metrics_full = Some (VNumber x).
Proof.
  split; [vm_compute; reflexivity|].
  destruct (get ["basicHistogram"] metrics_full) as [basic|] eqn:Hbasic;
    [|vm_compute in Hbasic; discriminate].
  destruct (BenchmarkMetrics_basicHistogram ext_objects metrics_full basic)
    as [(x & Hx) _];
    [vm_compute; reflexivity | exact Hbasic
    | vm_compute in Hbasic; injection Hbasic as <-; discriminate |].
  exists x. rewrite (get_step _ _ _ _ Hbasic). exact Hx.
Defined.

(** X11.  In every [BenchmarkMetrics], [name] is a string and
    [requests.count], [requests.average], [response.totalBytes] and
    [response.bytesPerSecond] are numbers. *)
Theorem BenchmarkMetrics_counters (ext : string -> value -> bool) (m : value) :
  conforms ext BenchmarkMetrics m = true ->
  (exists s, get ["name"] m = Some (VString s)) /\
  Forall (fun path => exists x, get path m = Some (VNumber x))
    [ ["requests"; "count"]; ["requests"; "average"];
      ["response"; "totalBytes"]; ["response"; "bytesPerSecond"] ].
Proof.
  intros H. split; [exact (required_string ext _ _ "name" H eq_refl)|].
  repeat apply Forall_cons_2; try apply Forall_nil_2;
    match goal with
    | |- exists x, get ?path _ = _ =>
        destruct (conforms_required_at ext path _ _ _ H eq_refl) as (x & Hx & Hc & _)
    end;
    apply conforms_number in Hc as (y & ->); exists y; exact Hx.
Qed.

Lemma BenchmarkMetrics_counters_witness :
  conforms ext_objects BenchmarkMetrics metrics_plain = true /\
  exists s, get ["name"] metrics_plain = Some (VString s).
Proof.
  split; [vm_compute; reflexivity|].
  apply (BenchmarkMetrics_counters ext_objects metrics_plain). vm_compute. reflexivity.
Defined.



(** X13.  In every [BenchmarkMetricParams], [histogram] is a
    [PreciseHdrHistogram], and [geoMean] and the six prefix fields are
    numbers when present. *)
Theorem BenchmarkMetricParams_own_fields (ext : string -> value -> bool) (p : value) :
  conforms ext BenchmarkMetricParams p = true ->
  (exists h, get ["histogram"] p = Some h /\ h <> VUndefined /\
             ext "precise_hdr.PreciseHdrHistogram" h = true) /\
  Forall (fun name => optionally is_number (get [name] p))
    [ "geoMean"; "p501stHalf"; "p501stQuarter"; "p501stEighth";
      "geoMean1stHalf"; "geoMean1stQuarter"; "geoMean1stEighth" ].
Proof.
  intros H. split; [exact (conforms_required ext _ _ "histogram" _ H eq_refl)|].
  repeat apply Forall_cons_2; try apply Forall_nil_2;
    match goal with
    | |- optionally _ (get [?name] _) => exact (optional_number ext _ _ name H eq_refl)
    end.
Qed.

Lemma BenchmarkMetricParams_own_fields_witness :
  conforms ext_objects BenchmarkMetricParams metric_params = true /\
  exists h, get ["histogram"] metric_params = Some h /\ h <> VUndefined /\
            ext_objects "precise_hdr.PreciseHdrHistogram" h = true.
Proof.
  split; [vm_compute; reflexivity|].
  apply (BenchmarkMetricParams_own_fields ext_objects metric_params).
  vm_compute. reflexivity.
Defined.

End ReportCoverage.
